(** * Investment research agent: the data pipeline of [investment_agent.py]

    A shallow embedding of the three pipeline functions of the script,
    [fetch_stock_data], [fetch_news] and [generate_report], together with
    the small part of Python, pandas and requests that they rely on:

    - exceptions, and the [try ... except Exception] boundary;
    - the Streamlit messages and the outgoing calls, kept as a trace;
    - the values [response.json()] can produce, with subscripting,
      iteration and [.get];
    - a date-indexed price table, with flat column labels or with the
      two-level labels of a download (one group of columns per ticker),
      its ['Close'] selection, [.empty], [.iloc[-1]], [.max()], [.min()]
      and [.values.flatten()], and the [float] coercion of what those
      hand back.

    The two providers are not part of the program: they are inputs, an
    oracle per provider that says what the call returns or raises.

    The page comes after the pipeline: the module-level check of the key,
    [plot_stock_data] and [main], as the list of Streamlit and plotting
    calls a run performs, each with its arguments.  Those calls are taken
    to succeed; what the visitor typed and pressed is an input. *)

From Stdlib Require Import ZArith QArith Qminmax List Sorted Lia.
From stdpp Require Import base strings gmap list pretty.

Local Open Scope string_scope.
Local Open Scope list_scope.
#[local] Set Warnings "-register-all".

(** ** Exceptions *)

Module Py.

(** The exceptions the pipeline can meet.  All of them derive from
    [Exception], so [except Exception] catches every one. *)
Inductive exn : Type :=
| KeyError (key : string)
| TypeError (msg : string)
| AttributeError (msg : string)
| IndexError (msg : string)
| LibraryError (cls msg : string).

(** [str(e)], as the f-strings of the handlers render it: a [KeyError]
    prints the repr of its key, the others print their message. *)
Definition str_exn (e : exn) : string :=
  match e with
  | KeyError k => "'" +:+ k +:+ "'"
  | TypeError m | AttributeError m | IndexError m => m
  | LibraryError _ m => m
  end.

(** A computation that returns or raises. *)
Inductive result (A : Type) : Type :=
| Ok (a : A)
| Raise (e : exn).
Arguments Ok {A} a.
Arguments Raise {A} e.

Definition rbind {A B} (c : result A) (k : A → result B) : result B :=
  match c with
  | Ok a => k a
  | Raise e => Raise e
  end.

(** Evaluation of a list comprehension [[f x for x in xs]]: left to right,
    the first element that raises aborts the whole list. *)
Fixpoint comprehension {A B} (f : A → result B) (xs : list A) : result (list B) :=
  match xs with
  | [] => Ok []
  | x :: xs' =>
      rbind (f x) (λ y, rbind (comprehension f xs') (λ ys, Ok (y :: ys)))
  end.

(** *** Values decoded from JSON *)

(** What [json.loads] builds.  A dict keeps its insertion order; its keys
    are unique, so [dict_lookup] below finds the one binding of a key. *)
Inductive val : Type :=
| PNone
| PBool (b : bool)
| PInt (z : Z)
| PFloat (q : Q)
| PStr (s : string)
| PList (l : list val)
| PDict (d : list (string * val)).

Definition type_name (v : val) : string :=
  match v with
  | PNone => "NoneType"
  | PBool _ => "bool"
  | PInt _ => "int"
  | PFloat _ => "float"
  | PStr _ => "str"
  | PList _ => "list"
  | PDict _ => "dict"
  end.

Fixpoint dict_lookup (k : string) (d : list (string * val)) : option val :=
  match d with
  | [] => None
  | (k', v) :: d' => if decide (k = k') then Some v else dict_lookup k d'
  end.

(** [v[k]] for a string key [k]. *)
Definition subscript (v : val) (k : string) : result val :=
  match v with
  | PDict d =>
      match dict_lookup k d with
      | Some x => Ok x
      | None => Raise (KeyError k)
      end
  | PStr _ => Raise (TypeError "string indices must be integers, not 'str'")
  | PList _ => Raise (TypeError "list indices must be integers or slices, not str")
  | _ => Raise (TypeError ("'" +:+ type_name v +:+ "' object is not subscriptable"))
  end.

(** [v.get(k, default)]: only a dict has the method. *)
Definition get (v : val) (k : string) (default : val) : result val :=
  match v with
  | PDict d => Ok (from_option id default (dict_lookup k d))
  | _ => Raise (AttributeError
                  ("'" +:+ type_name v +:+ "' object has no attribute 'get'"))
  end.

Fixpoint chars (s : string) : list val :=
  match s with
  | EmptyString => []
  | String c s' => PStr (String c EmptyString) :: chars s'
  end.

(** [for x in v]: a list yields its elements, a string its characters, a
    dict its keys; nothing else is iterable. *)
Definition iterate (v : val) : result (list val) :=
  match v with
  | PList l => Ok l
  | PStr s => Ok (chars s)
  | PDict d => Ok (map (λ kv, PStr (fst kv)) d)
  | _ => Raise (TypeError ("'" +:+ type_name v +:+ "' object is not iterable"))
  end.

End Py.
Export Py.

Declare Scope py_scope.
Delimit Scope py_scope with py.
Notation "x <- c1 ;; c2" := (rbind c1 (λ x, c2))
  (at level 100, c1 at next level, right associativity) : py_scope.

(** ** Effects: outgoing calls and Streamlit messages *)

Module IO.

(** What a run leaves behind, in the order it happened. *)
Inductive event : Type :=
| YfDownload (ticker period : string) (auto_adjust : bool)
| HttpGet (url : string)
| StError (msg : string)
| StWarning (msg : string).

(** An effectful computation: the events it emitted and how it ended.  The
    events emitted before an exception stay in the trace. *)
Definition M (A : Type) : Type := (list event * result A)%type.

Definition ret {A} (a : A) : M A := ([], Ok a).

Definition bind {A B} (c : M A) (k : A → M B) : M B :=
  match c with
  | (t, Ok a) => let '(t', r) := k a in (t ++ t', r)
  | (t, Raise e) => (t, Raise e)
  end.

Definition emit (ev : event) : M unit := ([ev], Ok tt).

Definition lift {A} (r : result A) : M A := ([], r).

(** [try: body / except Exception as e: handler e]. *)
Definition try_except {A} (body : M A) (handler : exn → M A) : M A :=
  match body with
  | (t, Ok a) => (t, Ok a)
  | (t, Raise e) => let '(t', r) := handler e in (t ++ t', r)
  end.

Definition st_error (msg : string) : M unit := emit (StError msg).
Definition st_warning (msg : string) : M unit := emit (StWarning msg).

Definition trace {A} (c : M A) : list event := fst c.
Definition outcome {A} (c : M A) : result A := snd c.

Definition is_http_get (ev : event) : bool :=
  match ev with HttpGet _ => true | _ => false end.

(** The run made no call to the news provider. *)
Definition no_network_call {A} (c : M A) : Prop :=
  Forall (λ ev, is_http_get ev = false) (trace c).

End IO.
Export IO.

Declare Scope io_scope.
Delimit Scope io_scope with io.
Notation "x <- c1 ;; c2" := (bind c1 (λ x, c2))
  (at level 100, c1 at next level, right associativity) : io_scope.
Notation "c1 ;; c2" := (bind c1 (λ _, c2))
  (at level 100, right associativity) : io_scope.

(** ** The price table *)

Module Pandas.

(** A Python float as a reduction hands it back: a number, or [nan] when
    there was nothing to reduce. *)
Inductive pyfloat : Type :=
| Fin (q : Q)
| NaN.

(** One trading day of one ticker.  Every day carries its close: the
    table has no missing value.  A close is a rational: the program only
    compares closes, it does no arithmetic on them. *)
Record row : Type := { Date : Z; Close : Q; Volume : Z }.

(** The table [yf.download] returns.  Its columns are labelled by field
    alone (['Close'], ['Volume']), or by field and ticker
    ([('Close', 'AAPL')], ...), with one group of columns for every
    ticker of the download; the rows of a ticker are its trading days, in
    the order of the index.  A table is rectangular: under two-level
    labels every ticker has the same days. *)
Inductive DataFrame : Type :=
| Flat (rows : list row)
| PerTicker (tables : list (string * list row)).

(** [data.empty]: the table has no row, or no column. *)
Definition empty (data : DataFrame) : bool :=
  match data with
  | Flat [] => true
  | Flat (_ :: _) => false
  | PerTicker [] => true
  | PerTicker ((_, []) :: _) => true
  | PerTicker ((_, _ :: _) :: _) => false
  end.

(** [data.index] *)
Definition index (data : DataFrame) : list Z :=
  match data with
  | Flat rows => map Date rows
  | PerTicker [] => []
  | PerTicker ((_, rows) :: _) => map Date rows
  end.

(** The closes and the volumes of one ticker, oldest first. *)
Definition col_Close (rows : list row) : list Q := map Close rows.
Definition col_Volume (rows : list row) : list Z := map Volume rows.

(** What [data['Close']] and [data['Volume']] select: a Series under
    flat labels, a table with one column per ticker under two-level
    labels. *)
Inductive selection (A : Type) : Type :=
| Column (s : list A)
| Columns (cs : list (list A)).
Arguments Column {A} s.
Arguments Columns {A} cs.

(** [data['Close']] *)
Definition getitem_Close (data : DataFrame) : selection Q :=
  match data with
  | Flat rows => Column (col_Close rows)
  | PerTicker tables => Columns (map (λ t, col_Close (snd t)) tables)
  end.

(** [data['Volume']] *)
Definition getitem_Volume (data : DataFrame) : selection Z :=
  match data with
  | Flat rows => Column (col_Volume rows)
  | PerTicker tables => Columns (map (λ t, col_Volume (snd t)) tables)
  end.

(** What [.iloc[-1]], [.max()] and [.min()] hand back: a numpy scalar
    when taken on a Series, a Series with one entry per column when taken
    on a table. *)
Inductive reduced : Type :=
| Scalar (x : pyfloat)
| Series (xs : list pyfloat).

(** [s.iloc[-1]] on a Series *)
Fixpoint iloc_last (s : list Q) : result pyfloat :=
  match s with
  | [] => Raise (IndexError "single positional indexer is out-of-bounds")
  | [x] => Ok (Fin x)
  | _ :: s' => iloc_last s'
  end.

(** [s.max()] and [s.min()] *)
Definition series_max (s : list Q) : pyfloat :=
  match s with
  | [] => NaN
  | x :: s' => Fin (fold_left Qmax s' x)
  end.

Definition series_min (s : list Q) : pyfloat :=
  match s with
  | [] => NaN
  | x :: s' => Fin (fold_left Qmin s' x)
  end.

(** [.iloc[-1]] on a selection: the last value of the Series, or the
    last row of the table as a Series. *)
Definition sel_iloc_last (sel : selection Q) : result reduced :=
  match sel with
  | Column s => rbind (iloc_last s) (λ x, Ok (Scalar x))
  | Columns [] => Raise (IndexError "single positional indexer is out-of-bounds")
  | Columns cs => rbind (comprehension iloc_last cs) (λ xs, Ok (Series xs))
  end.

(** [.max()] and [.min()] on a selection: of the Series, or of every
    column of the table. *)
Definition sel_max (sel : selection Q) : reduced :=
  match sel with
  | Column s => Scalar (series_max s)
  | Columns cs => Series (map series_max cs)
  end.

Definition sel_min (sel : selection Q) : reduced :=
  match sel with
  | Column s => Scalar (series_min s)
  | Columns cs => Series (map series_min cs)
  end.

(** The values of a table with [n] rows, row by row. *)
Fixpoint rows_first {A} (n : nat) (cs : list (list A)) : list A :=
  match n with
  | O => []
  | S n' => flat_map (take 1) cs ++ rows_first n' (map (drop 1) cs)
  end.

(** [.values.flatten()] on a selection *)
Definition sel_flatten {A} (sel : selection A) : list A :=
  match sel with
  | Column s => s
  | Columns [] => []
  | Columns (c :: cs) => rows_first (length c) (c :: cs)
  end.

(** The pandas in use.  Up to pandas 2, [float] of a Series with a single
    element gives that element; pandas 3 refuses every Series. *)
Record pandas : Type := { single_element_float : bool }.

End Pandas.
Export Pandas.

(** ** The providers *)

(** What [requests.get] hands back: the status, and what [.json()] does
    when it is called on the body. *)
Record response : Type := { status_code : Z; json : result val }.

(** The outside of the program.  [yf_download] and [requests_get] say
    what the two providers do for a given call; [str_other] is the text
    Python prints for a JSON float, list or dict inside an f-string. *)
Record world : Type := {
  yf_download : string → string → bool → result DataFrame;
  requests_get : string → result response;
  str_other : val → string
}.

Definition yf_download_call (w : world) (ticker period : string)
    (auto_adjust : bool) : M DataFrame :=
  ([YfDownload ticker period auto_adjust], yf_download w ticker period auto_adjust).

Definition requests_get_call (w : world) (url : string) : M response :=
  ([HttpGet url], requests_get w url).

(** [f"{v}"] for a decoded JSON value. *)
Definition format (w : world) (v : val) : string :=
  match v with
  | PStr s => s
  | PNone => "None"
  | PBool true => "True"
  | PBool false => "False"
  | PInt z => pretty z
  | _ => str_other w v
  end.

(** ** The pipeline *)

Section Pipeline.

Variable w : world.

(** [NEWS_API_KEY] is a string, or [None] when the variable is not set. *)
Definition credential : Type := option string.

(** [not api_key] *)
Definition falsy (api_key : credential) : bool :=
  match api_key with
  | None => true
  | Some s => bool_decide (s = "")
  end.

Definition format_credential (api_key : credential) : string :=
  match api_key with
  | None => "None"
  | Some s => s
  end.

Definition fetch_stock_data (ticker : string) : M (option DataFrame) :=
  try_except
    (data <- yf_download_call w ticker "6mo" true;;
     if empty data then
       st_error "No stock data found for this ticker.";;
       ret None
     else ret (Some data))%io
    (λ e, st_error ("Error fetching stock data: " +:+ str_exn e);;
          ret None)%io.

Definition news_url (ticker : string) (api_key : credential) (limit : Z) : string :=
  "https://newsapi.org/v2/everything?"
  +:+ "q=" +:+ ticker +:+ "&"
  +:+ "sortBy=publishedAt&"
  +:+ "language=en&"
  +:+ "pageSize=" +:+ pretty limit +:+ "&"
  +:+ "apiKey=" +:+ format_credential api_key.

(** [f"{art['title']} ({art['source']['name']})"] *)
Definition headline (art : val) : result string :=
  (title <- subscript art "title";;
   source <- subscript art "source";;
   name <- subscript source "name";;
   Ok (format w title +:+ " (" +:+ format w name +:+ ")"))%py.

Definition fetch_news (ticker : string) (api_key : credential) (limit : Z)
    : M (list string) :=
  if falsy api_key then ret []
  else
    let url := news_url ticker api_key limit in
    try_except
      (response <- requests_get_call w url;;
       if negb (status_code response =? 200)%Z then
         st_warning ("NewsAPI returned status " +:+ pretty (status_code response));;
         ret []
       else
         body <- lift (json response);;
         articles <- lift (get body "articles" (PList []));;
         news_list <- lift (arts <- iterate articles;;
                            comprehension headline arts)%py;;
         ret news_list)%io
      (λ e, st_warning ("Failed to fetch news: " +:+ str_exn e);;
            ret [])%io.

End Pipeline.

(** The report is a dict: a float under each price key, the list of
    headlines under ["news"]. *)
Inductive value : Type :=
| VFloat (x : pyfloat)
| VNews (l : list string).

(** [float(v)]: the Python float of a numpy scalar; of a Series, its
    single element where pandas still allows it, a [TypeError]
    otherwise. *)
Definition float (pd : pandas) (v : reduced) : result value :=
  match v with
  | Scalar x => Ok (VFloat x)
  | Series [x] =>
      if single_element_float pd then Ok (VFloat x)
      else Raise (TypeError "cannot convert the series to <class 'float'>")
  | Series _ => Raise (TypeError "cannot convert the series to <class 'float'>")
  end.

Definition generate_report (pd : pandas) (ticker : string)
    (data : option DataFrame) (news : list string)
    : result (gmap string value) :=
  let report : gmap string value := ∅ in
  (report <-
     match data with
     | Some data =>
         if negb (empty data) then
           last <- sel_iloc_last (getitem_Close data);;
           last_close <- float pd last;;
           let report := <["last_close" := last_close]> report in
           highest <- float pd (sel_max (getitem_Close data));;
           let report := <["highest" := highest]> report in
           lowest <- float pd (sel_min (getitem_Close data));;
           let report := <["lowest" := lowest]> report in
           Ok report
         else Ok report
     | None => Ok report
     end;;
   Ok (<["news" := VNews news]> report))%py.

(** ** The page *)

Module Page.

(** What a run of the script does to the outside, call by call: the
    events of the pipeline, the Streamlit widgets and texts, and the
    calls that draw the figure, each with the arguments it was given. *)
Inductive call : Type :=
| Pipeline (ev : event)
| StTitle (body : string)
| StWrite (body : string)
| StInfo (body : string)
| StSubheader (body : string)
| StTextInput (label value : string)
| StButton (label : string)
| PltSubplots (nrows ncols : Z) (figsize : Z * Z) (sharex : bool)
| SnsLineplot (x : list Z) (y : list Q) (ax : Z)
| AxSetYlabel (ax : Z) (label : string)
| AxSetTitle (ax : Z) (label : string)
| AxBar (ax : Z) (x : list Z) (height : list Z) (color : string)
| PltSetpRotation (ax : Z) (rotation : Z)
| PltTightLayout
| StPyplot.

Definition Script (A : Type) : Type := (list call * result A)%type.

Definition sret {A} (a : A) : Script A := ([], Ok a).

Definition sbind {A B} (c : Script A) (k : A → Script B) : Script B :=
  match c with
  | (t, Ok a) => let '(t', r) := k a in (t ++ t', r)
  | (t, Raise e) => (t, Raise e)
  end.

Definition perform (c : call) : Script unit := ([c], Ok tt).

(** A pipeline function called from the page: its events, in order, and
    its outcome. *)
Definition run {A} (c : M A) : Script A := (map Pipeline (trace c), outcome c).

Definition evaluate {A} (r : result A) : Script A := ([], r).

(** [for x in xs: body x] *)
Fixpoint for_each {A} (xs : list A) (body : A → Script unit) : Script unit :=
  match xs with
  | [] => sret tt
  | x :: xs' => sbind (body x) (λ _, for_each xs' body)
  end.

(** [enumerate(l, start=start)] *)
Fixpoint enumerate {A} (l : list A) (start : Z) : list (Z * A) :=
  match l with
  | [] => []
  | x :: l' => (start, x) :: enumerate l' (start + 1)
  end.

(** The events of the pipeline among the calls of a run. *)
Fixpoint pipeline_events (t : list call) : list event :=
  match t with
  | [] => []
  | Pipeline ev :: t' => ev :: pipeline_events t'
  | _ :: t' => pipeline_events t'
  end.

(** The texts [st.write] put on the page, in order. *)
Fixpoint written (t : list call) : list string :=
  match t with
  | [] => []
  | StWrite body :: t' => body :: written t'
  | _ :: t' => written t'
  end.

End Page.
Export Page.

Declare Scope page_scope.
Delimit Scope page_scope with page.
Notation "x <- c1 ;; c2" := (sbind c1 (λ x, c2))
  (at level 100, c1 at next level, right associativity) : page_scope.
Notation "c1 ;; c2" := (sbind c1 (λ _, c2))
  (at level 100, right associativity) : page_scope.

(** What the visitor did: the text in the input box and whether the
    button was pressed. *)
Record browser : Type := { typed : string; pressed : bool }.

(** Two built-ins whose text is the interpreter's business: [str.upper]
    and the [:.2f] format of a float. *)
Record python : Type := {
  upper : string → string;
  format_2f : pyfloat → string
}.

(** The module-level code that runs before [main]: the warning when the
    key was not loaded. *)
Definition startup (NEWS_API_KEY : credential) : M unit :=
  if falsy NEWS_API_KEY then
    st_warning "NEWS_API_KEY is not loaded from .env. News analysis will be skipped."
  else ret tt.

Definition plot_stock_data (data : DataFrame) (ticker : string) : Script unit :=
  (perform (StSubheader (ticker +:+ " Price & Volume Trends (Last 6 Months)"));;
   perform (PltSubplots 2 1 (12, 8)%Z true);;
   perform (SnsLineplot (index data) (sel_flatten (getitem_Close data)) 0);;
   perform (AxSetYlabel 0 "Closing Price");;
   perform (AxSetTitle 0 (ticker +:+ " Closing Price"));;
   perform (AxBar 1 (index data) (sel_flatten (getitem_Volume data)) "orange");;
   perform (AxSetYlabel 1 "Volume");;
   perform (AxSetTitle 1 (ticker +:+ " Volume"));;
   perform (PltSetpRotation 1 45);;
   perform PltTightLayout;;
   perform StPyplot)%page.

(** [f"{report[key]:.2f}"]: the key must be there, and hold a float. *)
Definition format_field (py : python) (report : gmap string value)
    (key : string) : result string :=
  match report !! key with
  | None => Raise (KeyError key)
  | Some (VFloat x) => Ok (format_2f py x)
  | Some (VNews _) =>
      Raise (TypeError "unsupported format string passed to list.__format__")
  end.

Definition truthy_str (s : string) : bool := negb (bool_decide (s = "")).

Definition main (w : world) (pd : pandas) (py : python) (b : browser)
    (NEWS_API_KEY : credential) : Script unit :=
  (perform (StTitle "ðŸ“ˆ Investment Research Agent");;
   perform (StWrite "Powered by Agentic AI concepts (multi-agent inspired)");;
   perform (StTextInput "Enter Stock Symbol" "AAPL");;
   let ticker := upper py (typed b) in
   perform (StButton "Run Analysis");;
   if pressed b && truthy_str ticker then
     perform (StInfo ("Fetching stock data for " +:+ ticker +:+ "..."));;
     stock_data <- run (fetch_stock_data w ticker);;
     perform (StInfo ("Fetching latest news for " +:+ ticker +:+ "..."));;
     news_list <- run (fetch_news w ticker NEWS_API_KEY 5);;
     match stock_data with
     | Some data => plot_stock_data data ticker
     | None => sret tt
     end;;
     report <- evaluate (generate_report pd ticker stock_data news_list);;
     perform (StSubheader "ðŸ“Š Market Analysis Report");;
     match stock_data with
     | Some _ =>
         last_close <- evaluate (format_field py report "last_close");;
         perform (StWrite ("Last Closing Price: $" +:+ last_close));;
         highest <- evaluate (format_field py report "highest");;
         perform (StWrite ("Highest Price (6mo): $" +:+ highest));;
         lowest <- evaluate (format_field py report "lowest");;
         perform (StWrite ("Lowest Price (6mo): $" +:+ lowest))
     | None => sret tt
     end;;
     perform (StSubheader "ðŸ“° Latest News");;
     match news_list with
     | _ :: _ =>
         for_each (enumerate news_list 1)
           (λ '(i, item), perform (StWrite (pretty i +:+ ". " +:+ item)))
     | [] => perform (StWrite "No news found or API key missing.")
     end
   else sret tt)%page.

(** The whole script: the module-level code, then [main]. *)
Definition script (w : world) (pd : pandas) (py : python) (b : browser)
    (NEWS_API_KEY : credential) : Script unit :=
  (run (startup NEWS_API_KEY);;
   main w pd py b NEWS_API_KEY)%page.

(** * Specification vocabulary *)

(** ** Price summary *)

(** [x] is one of the values of [s] and none is larger (smaller). *)
Definition is_max_of (x : Q) (s : list Q) : Prop :=
  In x s ∧ ∀ c, In c s → (c <= x)%Q.

Definition is_min_of (x : Q) (s : list Q) : Prop :=
  In x s ∧ ∀ c, In c s → (x <= c)%Q.

(** The dates of the rows are strictly increasing: one row per trading
    day, oldest first. *)
Definition chronological (rows : list row) : Prop :=
  StronglySorted Z.lt (map Date rows).

(** [r] is the record of [rows] with the latest date. *)
Definition chronologically_last (r : row) (rows : list row) : Prop :=
  In r rows ∧ ∀ r', In r' rows → (Date r' <= Date r)%Z.

(** A selection without values: no row, or no column. *)
Definition sel_empty {A} (sel : selection A) : bool :=
  match sel with
  | Column [] => true
  | Column (_ :: _) => false
  | Columns [] => true
  | Columns ([] :: _) => true
  | Columns ((_ :: _) :: _) => false
  end.

(** The table of one ticker: under flat labels, or under two-level
    labels that name the ticker. *)
Definition one_ticker (label : option string) (rows : list row) : DataFrame :=
  match label with
  | None => Flat rows
  | Some ticker => PerTicker [(ticker, rows)]
  end.

(** [float] accepts what the reductions of a table of one ticker hand
    back: a scalar under flat labels, a Series with one element under
    two-level labels. *)
Definition coercible (pd : pandas) (label : option string) : bool :=
  match label with
  | None => true
  | Some _ => single_element_float pd
  end.

(** The three price fields of a report. *)
Definition price_fields (report : gmap string value)
    : option value * option value * option value :=
  (report !! "last_close", report !! "highest", report !! "lowest").

(** ** News responses *)

Definition is_2xx (status : Z) : bool :=
  (200 <=? status)%Z && (status <=? 299)%Z.

(** Lines 67 and 68 of the script on their own: decode the body, take its
    ["articles"], render every entry. *)
Definition parse_articles (w : world) (resp : response) : result (list string) :=
  (body <- json resp;;
   articles <- get body "articles" (PList []);;
   arts <- iterate articles;;
   comprehension (headline w) arts)%py.

(** The three ways a call that reached the provider can end. *)
Definition status_rejected (url : string) (resp : response) : M (list string) :=
  ([HttpGet url;
    StWarning ("NewsAPI returned status " +:+ pretty (status_code resp))],
   Ok []).

Definition fetch_failed (url : string) (e : exn) : M (list string) :=
  ([HttpGet url; StWarning ("Failed to fetch news: " +:+ str_exn e)], Ok []).

Definition articles_extracted (w : world) (url : string) (resp : response)
    : M (list string) :=
  match parse_articles w resp with
  | Ok news_list => ([HttpGet url], Ok news_list)
  | Raise e => fetch_failed url e
  end.

(** The entry carries the keys the rendering reads: a ["title"], and a
    ["source"] object with a ["name"]. *)
Definition has_fields (art : val) : bool :=
  match art with
  | PDict d =>
      match dict_lookup "title" d, dict_lookup "source" d with
      | Some _, Some (PDict src) => bool_decide (is_Some (dict_lookup "name" src))
      | _, _ => false
      end
  | _ => false
  end.

(** A well-formed article with title [t] and source name [n]. *)
Definition is_article (art : val) (tn : string * string) : Prop :=
  ∃ d src,
    art = PDict d
    ∧ dict_lookup "title" d = Some (PStr tn.1)
    ∧ dict_lookup "source" d = Some (PDict src)
    ∧ dict_lookup "name" src = Some (PStr tn.2).

(** ["{title} ({source name})"] *)
Definition headline_text (tn : string * string) : string :=
  tn.1 +:+ " (" +:+ tn.2 +:+ ")".

(** The body has the expected top-level shape: an object whose
    ["articles"] is a list of entries with the fields of an article. *)
Definition articles_shape (body : val) : bool :=
  match body with
  | PDict d =>
      match dict_lookup "articles" d with
      | Some (PList arts) => forallb has_fields arts
      | _ => false
      end
  | _ => false
  end.

(** How many entries the articles array of the provider's answer has;
    zero when the answer has no such array. *)
Definition articles_in_response (w : world) (url : string) : nat :=
  match requests_get w url with
  | Ok resp =>
      match json resp with
      | Ok (PDict d) =>
          match dict_lookup "articles" d with
          | Some (PList arts) => length arts
          | _ => 0
          end
      | _ => 0
      end
  | Raise _ => 0
  end.

(** ** The claims that do not hold as they are worded *)

(** The status policy with [accepted] as the set of statuses that let the
    call go on to the articles. *)
Definition status_policy (accepted : Z → bool) : Prop :=
  ∀ w ticker api_key limit resp,
    falsy api_key = false →
    requests_get w (news_url ticker api_key limit) = Ok resp →
    fetch_news w ticker api_key limit =
    if accepted (status_code resp)
    then articles_extracted w (news_url ticker api_key limit) resp
    else status_rejected (news_url ticker api_key limit) resp.

(** Every well-formed article of an answer whose status is [accepted] is
    rendered, in the order of the answer. *)
Definition articles_rendered (accepted : Z → bool) : Prop :=
  ∀ w ticker api_key limit resp d arts fields,
    falsy api_key = false →
    requests_get w (news_url ticker api_key limit) = Ok resp →
    accepted (status_code resp) = true →
    json resp = Ok (PDict d) →
    dict_lookup "articles" d = Some (PList arts) →
    Forall2 is_article arts fields →
    outcome (fetch_news w ticker api_key limit) = Ok (map headline_text fields).

(** The result is never longer than [limit]. *)
Definition length_within_limit : Prop :=
  ∀ w ticker api_key limit news_list,
    outcome (fetch_news w ticker api_key limit) = Ok news_list →
    (Z.of_nat (length news_list) <= limit)%Z.

(** ** The page *)

(** The lines the page shows for a list of headlines: numbered from 1, or
    the fallback text when there is none. *)
Definition news_lines (news_list : list string) : list string :=
  match news_list with
  | [] => ["No news found or API key missing."]
  | _ :: _ =>
      map (λ '(i, item), pretty i +:+ ". " +:+ item) (enumerate news_list 1)
  end.

(** The three price lines of a report, empty when there is no table. *)
Definition price_lines (py : python) (stock_data : option DataFrame)
    (report : gmap string value) : list string :=
  match stock_data, price_fields report with
  | Some _, (Some (VFloat last), Some (VFloat high), Some (VFloat low)) =>
      ["Last Closing Price: $" +:+ format_2f py last;
       "Highest Price (6mo): $" +:+ format_2f py high;
       "Lowest Price (6mo): $" +:+ format_2f py low]
  | _, _ => []
  end.

(** An entry with a null title and a source named [n]. *)
Definition is_untitled (art : val) (n : string) : Prop :=
  ∃ d src,
    art = PDict d
    ∧ dict_lookup "title" d = Some PNone
    ∧ dict_lookup "source" d = Some (PDict src)
    ∧ dict_lookup "name" src = Some (PStr n).

Definition is_st_warning (ev : event) : bool :=
  match ev with StWarning _ => true | _ => false end.

Definition key_warning : event :=
  StWarning "NEWS_API_KEY is not loaded from .env. News analysis will be skipped.".

(** The calls every run starts with: the title, the tag line and the
    two widgets. *)
Definition page_head : list call :=
  [StTitle "ðŸ“ˆ Investment Research Agent";
   StWrite "Powered by Agentic AI concepts (multi-agent inspired)";
   StTextInput "Enter Stock Symbol" "AAPL";
   StButton "Run Analysis"].

Definition report_header : call := StSubheader "ðŸ“Š Market Analysis Report".

Definition news_header : call := StSubheader "ðŸ“° Latest News".

(** The button was pressed and the ticker is not empty. *)
Definition triggered (py : python) (b : browser) : bool :=
  pressed b && truthy_str (upper py (typed b)).

(** The calls that draw the figure, when there is a table to draw. *)
Definition plot_calls (stock_data : option DataFrame) (ticker : string)
    : list call :=
  match stock_data with
  | Some data => fst (plot_stock_data data ticker)
  | None => []
  end.

(** The calls of a triggered run before the report is built: the head
    of the page, the two fetches with their notices, and the figure. *)
Definition run_prefix (py : python) (b : browser) (t1 t2 : list event)
    (stock_data : option DataFrame) : list call :=
  page_head
  ++ [StInfo ("Fetching stock data for " +:+ upper py (typed b) +:+ "...")]
  ++ map Pipeline t1
  ++ [StInfo ("Fetching latest news for " +:+ upper py (typed b) +:+ "...")]
  ++ map Pipeline t2
  ++ plot_calls stock_data (upper py (typed b)).

Definition is_plot_call (c : call) : bool :=
  match c with
  | PltSubplots _ _ _ _ | SnsLineplot _ _ _ | AxSetYlabel _ _
  | AxSetTitle _ _ | AxBar _ _ _ _ | PltSetpRotation _ _
  | PltTightLayout | StPyplot => true
  | _ => false
  end.

(** * Sample inputs *)

Definition sample_days : list row :=
  [ {| Date := 20240102; Close := 150; Volume := 1200 |};
    {| Date := 20240103; Close := 200; Volume := 900 |};
    {| Date := 20240104; Close := 180; Volume := 1500 |} ].

(** The sample days under flat labels, and as [yf.download] labels them
    for the one ticker AAPL. *)
Definition sample_rows : DataFrame := Flat sample_days.

Definition provider_frame : DataFrame := PerTicker [("AAPL", sample_days)].

(** The sample days of two tickers in one download. *)
Definition two_ticker_frame : DataFrame :=
  PerTicker [("AAPL", sample_days); ("MSFT", sample_days)].

Definition pandas_2 : pandas := {| single_element_float := true |}.
Definition pandas_3 : pandas := {| single_element_float := false |}.

Definition sample_article (title name : string) : val :=
  PDict [("source", PDict [("id", PNone); ("name", PStr name)]);
         ("author", PNone);
         ("title", PStr title)].

Definition sample_fields (arts : list val) : list (string * val) :=
  [("status", PStr "ok");
   ("totalResults", PInt (Z.of_nat (length arts)));
   ("articles", PList arts)].

Definition sample_body (arts : list val) : val := PDict (sample_fields arts).

(** A world whose providers give the same answer to every call. *)
Definition sample_world (prices : result DataFrame) (news : result response)
    : world :=
  {| yf_download := λ _ _ _, prices;
     requests_get := λ _, news;
     str_other := type_name |}.

Definition answer (status : Z) (body : val) : result response :=
  Ok {| status_code := status; json := Ok body |}.

Definition three_articles : list val :=
  [sample_article "T1" "S1"; sample_article "T2" "S2"; sample_article "T3" "S3"].

Definition connection_error : exn :=
  LibraryError "ConnectionError" "Max retries exceeded".

Definition ascii_upper (c : Ascii.ascii) : Ascii.ascii :=
  let n := Ascii.N_of_ascii c in
  if ((97 <=? n) && (n <=? 122))%N then Ascii.ascii_of_N (n - 32) else c.

Fixpoint sample_upper (s : string) : string :=
  match s with
  | EmptyString => EmptyString
  | String c s' => String (ascii_upper c) (sample_upper s')
  end.

Definition two_digits (n : Z) : string :=
  if (n <? 10)%Z then "0" +:+ pretty n else pretty n.

(** Two decimals for the closes of the sample runs. *)
Definition sample_format_2f (x : pyfloat) : string :=
  match x with
  | NaN => "nan"
  | Fin q =>
      let r := (q * 100 + (1 # 2))%Q in
      let n := (Qnum r / Z.pos (Qden r))%Z in
      (if (n <? 0)%Z then "-" else "")
      +:+ pretty (Z.abs n / 100)%Z +:+ "." +:+ two_digits (Z.abs n mod 100)%Z
  end.

Definition sample_python : python :=
  {| upper := sample_upper; format_2f := sample_format_2f |}.

Definition untitled_article (name : string) : val :=
  PDict [("source", PDict [("id", PNone); ("name", PStr name)]);
         ("title", PNone)].

(** * Properties *)

(** ** Reductions over the [Close] column *)

Section Reductions.

Lemma Qmax_cases (x y : Q) : Qmax x y = x ∨ Qmax x y = y.
Proof.
  unfold Qmax, GenericMinMax.gmax. destruct (x ?= y)%Q; auto.
Qed.

Lemma Qmin_cases (x y : Q) : Qmin x y = x ∨ Qmin x y = y.
Proof.
  unfold Qmin, GenericMinMax.gmin. destruct (x ?= y)%Q; auto.
Qed.

Lemma fold_max_in (s : list Q) : ∀ x, In (fold_left Qmax s x) (x :: s).
Proof.
  induction s as [|y s IH]; intros x; simpl; [auto|].
  destruct (IH (Qmax x y)) as [H|H]; [|right; right; exact H].
  rewrite <- H. destruct (Qmax_cases x y) as [E|E]; rewrite E; auto.
Qed.

Lemma fold_max_ge_init (s : list Q) : ∀ x, (x <= fold_left Qmax s x)%Q.
Proof.
  induction s as [|y s IH]; intros x; simpl; [apply Qle_refl|].
  eapply Qle_trans; [apply Q.le_max_l | apply IH].
Qed.

Lemma fold_max_upper (s : list Q) :
  ∀ x c, In c (x :: s) → (c <= fold_left Qmax s x)%Q.
Proof.
  induction s as [|y s IH]; intros x c Hc; simpl.
  - destruct Hc as [->|[]]. apply Qle_refl.
  - destruct Hc as [->|[->|Hc]].
    + eapply Qle_trans; [apply Q.le_max_l | apply fold_max_ge_init].
    + eapply Qle_trans; [apply Q.le_max_r | apply fold_max_ge_init].
    + apply IH. right. exact Hc.
Qed.

Lemma fold_min_in (s : list Q) : ∀ x, In (fold_left Qmin s x) (x :: s).
Proof.
  induction s as [|y s IH]; intros x; simpl; [auto|].
  destruct (IH (Qmin x y)) as [H|H]; [|right; right; exact H].
  rewrite <- H. destruct (Qmin_cases x y) as [E|E]; rewrite E; auto.
Qed.

Lemma fold_min_le_init (s : list Q) : ∀ x, (fold_left Qmin s x <= x)%Q.
Proof.
  induction s as [|y s IH]; intros x; simpl; [apply Qle_refl|].
  eapply Qle_trans; [apply IH | apply Q.le_min_l].
Qed.

Lemma fold_min_lower (s : list Q) :
  ∀ x c, In c (x :: s) → (fold_left Qmin s x <= c)%Q.
Proof.
  induction s as [|y s IH]; intros x c Hc; simpl.
  - destruct Hc as [->|[]]. apply Qle_refl.
  - destruct Hc as [->|[->|Hc]].
    + eapply Qle_trans; [apply fold_min_le_init | apply Q.le_min_l].
    + eapply Qle_trans; [apply fold_min_le_init | apply Q.le_min_r].
    + apply IH. right. exact Hc.
Qed.

Lemma series_max_spec (s : list Q) :
  s ≠ [] → ∃ hi, series_max s = Fin hi ∧ is_max_of hi s.
Proof.
  destruct s as [|x s]; [congruence|]. intros _.
  exists (fold_left Qmax s x). split; [reflexivity|].
  split; [apply fold_max_in | apply fold_max_upper].
Qed.

Lemma series_min_spec (s : list Q) :
  s ≠ [] → ∃ lo, series_min s = Fin lo ∧ is_min_of lo s.
Proof.
  destruct s as [|x s]; [congruence|]. intros _.
  exists (fold_left Qmin s x). split; [reflexivity|].
  split; [apply fold_min_in | apply fold_min_lower].
Qed.

(** On rows that end with [r], [.iloc[-1]] of the column is the close of
    [r]. *)
Lemma iloc_last_snoc (rows : list row) (r : row) :
  iloc_last (col_Close (rows ++ [r])) = Ok (Fin (Close r)).
Proof.
  induction rows as [|r0 rows IH]; [reflexivity|].
  change (col_Close ((r0 :: rows) ++ [r]))
    with (Close r0 :: col_Close (rows ++ [r])).
  simpl. rewrite IH.
  destruct (col_Close (rows ++ [r])) eqn:E; [|reflexivity].
  destruct rows; discriminate E.
Qed.

Lemma iloc_last_total (s : list Q) :
  s ≠ [] → ∃ x, iloc_last s = Ok (Fin x) ∧ In x s.
Proof.
  induction s as [|a s IH]; [congruence|]. intros _.
  destruct s as [|b s].
  - exists a. split; [reflexivity | left; reflexivity].
  - destruct IH as (x & Hx & Hin); [discriminate|].
    exists x. split; [exact Hx | right; exact Hin].
Qed.

Lemma nonempty_snoc {A} (l : list A) : l ≠ [] → ∃ l' x, l = l' ++ [x].
Proof.
  intros H. destruct (exists_last H) as (l' & x & ->). eauto.
Qed.

End Reductions.

(** ** The chronological order of the table *)

Section Chronology.

Lemma chronological_snoc_bound (rows : list row) (r : row) :
  chronological (rows ++ [r]) → ∀ r', In r' rows → (Date r' < Date r)%Z.
Proof.
  unfold chronological. induction rows as [|r0 rows IH]; intros Hs r' Hin.
  - destruct Hin.
  - simpl in Hs. apply StronglySorted_inv in Hs as [Hs Hall].
    destruct Hin as [->|Hin]; [|exact (IH Hs r' Hin)].
    rewrite List.Forall_forall in Hall. apply Hall.
    rewrite map_app. apply in_or_app. right. left. reflexivity.
Qed.

Lemma chronological_last_position (rows : list row) (r : row) :
  chronological (rows ++ [r]) → chronologically_last r (rows ++ [r]).
Proof.
  intros Hs. split.
  - apply in_or_app. right. left. reflexivity.
  - intros r' Hin. apply in_app_or in Hin as [Hin|[->|[]]].
    + apply Z.lt_le_incl. exact (chronological_snoc_bound rows r Hs r' Hin).
    + apply Z.le_refl.
Qed.

End Chronology.

(** ** [generate_report] *)

Section Report.

Variable pd : pandas.

Lemma empty_one_ticker (label : option string) (rows : list row) :
  rows ≠ [] → empty (one_ticker label rows) = false.
Proof. destruct label, rows; simpl; congruence. Qed.

(** The dict the function builds on the rows of one ticker, when [float]
    accepts what the reductions hand back. *)
Lemma generate_report_rows ticker label (rows : list row) news x :
  rows ≠ [] →
  coercible pd label = true →
  iloc_last (col_Close rows) = Ok x →
  generate_report pd ticker (Some (one_ticker label rows)) news =
  Ok (<["news" := VNews news]>
        (<["lowest" := VFloat (series_min (col_Close rows))]>
           (<["highest" := VFloat (series_max (col_Close rows))]>
              (<["last_close" := VFloat x]> ∅)))).
Proof.
  intros Hne Hco Hlast. unfold generate_report.
  destruct rows as [|r rows]; [congruence|].
  destruct label as [t|];
    cbn [one_ticker empty negb getitem_Close map snd sel_iloc_last
         sel_max sel_min comprehension];
    rewrite Hlast; cbn [rbind float].
  - simpl in Hco. rewrite Hco. reflexivity.
  - reflexivity.
Qed.

(** Without rows, or without a table, only ["news"] is set. *)
Lemma generate_report_no_rows ticker (data : option DataFrame) news :
  data = None ∨ (∃ table, data = Some table ∧ empty table = true) →
  generate_report pd ticker data news = Ok (<["news" := VNews news]> ∅).
Proof.
  intros [-> | (table & -> & He)]; [reflexivity|].
  unfold generate_report. rewrite He. reflexivity.
Qed.

(** A two-level table of one ticker, once pandas refuses the Series. *)
Lemma generate_report_refuses ticker t (rows : list row) news :
  rows ≠ [] →
  single_element_float pd = false →
  ∃ msg,
    generate_report pd ticker (Some (PerTicker [(t, rows)])) news
    = Raise (TypeError msg).
Proof.
  intros Hne Hpd. unfold generate_report.
  destruct rows as [|r rows]; [congruence|].
  cbn [empty negb getitem_Close map snd sel_iloc_last comprehension].
  destruct (iloc_last_total (col_Close (r :: rows))) as (x & Hx & _);
    [discriminate|].
  rewrite Hx. cbn [rbind float]. rewrite Hpd. simpl. eauto.
Qed.

(** A table with the columns of two tickers or more. *)
Lemma generate_report_several ticker t1 (rows1 : list row) t2 rows2 rest news :
  rows1 ≠ [] →
  ∃ e,
    generate_report pd ticker
      (Some (PerTicker ((t1, rows1) :: (t2, rows2) :: rest))) news
    = Raise e.
Proof.
  intros Hne. unfold generate_report.
  destruct rows1 as [|r rows1]; [congruence|].
  cbn [empty negb getitem_Close map snd sel_iloc_last comprehension].
  destruct (iloc_last (col_Close (r :: rows1))) as [y1|e]; [|simpl; eauto].
  cbn [rbind].
  destruct (iloc_last (col_Close rows2)) as [y2|e]; [|simpl; eauto].
  cbn [rbind].
  destruct (comprehension iloc_last (map (λ t, col_Close t.2) rest))
    as [ys|e]; simpl; eauto.
Qed.

(** What a returned report is, for every input. *)
Lemma generate_report_cases ticker (data : option DataFrame) news report :
  generate_report pd ticker data news = Ok report →
  ((data = None ∨ ∃ table, data = Some table ∧ empty table = true)
   ∧ report = <["news" := VNews news]> ∅)
  ∨ ∃ label rows x,
      data = Some (one_ticker label rows) ∧ rows ≠ []
      ∧ coercible pd label = true
      ∧ iloc_last (col_Close rows) = Ok (Fin x)
      ∧ report
        = <["news" := VNews news]>
            (<["lowest" := VFloat (series_min (col_Close rows))]>
               (<["highest" := VFloat (series_max (col_Close rows))]>
                  (<["last_close" := VFloat (Fin x)]> ∅))).
Proof.
  intros Hrep.
  assert (Hleft : ∀ d, (d = None ∨ ∃ table, d = Some table ∧ empty table = true) →
                       d = data →
                       ((data = None ∨ ∃ table, data = Some table ∧ empty table = true)
                        ∧ report = <["news" := VNews news]> ∅)).
  { intros d Hd <-. split; [exact Hd|].
    rewrite (generate_report_no_rows ticker d news Hd) in Hrep. congruence. }
  assert (Hright : ∀ label rows,
             data = Some (one_ticker label rows) → rows ≠ [] →
             coercible pd label = true →
             ∃ label rows x,
               data = Some (one_ticker label rows) ∧ rows ≠ []
               ∧ coercible pd label = true
               ∧ iloc_last (col_Close rows) = Ok (Fin x)
               ∧ report
                 = <["news" := VNews news]>
                     (<["lowest" := VFloat (series_min (col_Close rows))]>
                        (<["highest" := VFloat (series_max (col_Close rows))]>
                           (<["last_close" := VFloat (Fin x)]> ∅)))).
  { intros label rows Hd Hne Hco.
    destruct (iloc_last_total (col_Close rows)) as (x & Hx & _).
    { destruct rows; [congruence | discriminate]. }
    exists label, rows, x. repeat split; try assumption.
    rewrite Hd, (generate_report_rows ticker label rows news _ Hne Hco Hx) in Hrep.
    congruence. }
  destruct data as [[rows|tables]|].
  - destruct rows as [|r rows].
    + left. eapply Hleft; [|reflexivity]. right. eexists. split; reflexivity.
    + right. apply (Hright None (r :: rows)); [reflexivity | discriminate | reflexivity].
  - destruct tables as [|[t1 rows1] tables].
    + left. eapply Hleft; [|reflexivity]. right. eexists. split; reflexivity.
    + destruct rows1 as [|r rows1].
      * left. eapply Hleft; [|reflexivity]. right. eexists. split; reflexivity.
      * destruct tables as [|[t2 rows2] rest].
        -- destruct (single_element_float pd) eqn:Hpd.
           ++ right. apply (Hright (Some t1) (r :: rows1));
                [reflexivity | discriminate | exact Hpd].
           ++ destruct (generate_report_refuses ticker t1 (r :: rows1) news)
                as [msg E]; [discriminate | exact Hpd|].
              rewrite E in Hrep. discriminate Hrep.
        -- destruct (generate_report_several ticker t1 (r :: rows1) t2 rows2
                       rest news) as [e E]; [discriminate|].
           rewrite E in Hrep. discriminate Hrep.
  - left. eapply Hleft; [|reflexivity]. left. reflexivity.
Qed.

Lemma price_fields_rows news (lc hi lo : value) :
  price_fields
    (<["news" := VNews news]>
       (<["lowest" := lo]> (<["highest" := hi]> (<["last_close" := lc]> ∅))))
  = (Some lc, Some hi, Some lo).
Proof.
  unfold price_fields. by simplify_map_eq.
Qed.

Lemma price_fields_no_rows news :
  price_fields (<["news" := VNews news]> ∅) = (None, None, None).
Proof.
  unfold price_fields. by simplify_map_eq.
Qed.

(** On the rows of one ticker, in chronological order, a returned report
    holds the close of the latest day, the largest close and the smallest
    close. *)
Lemma generate_report_summary ticker label (rows : list row) news :
  rows ≠ [] →
  chronological rows →
  coercible pd label = true →
  ∃ report r_last hi lo,
    generate_report pd ticker (Some (one_ticker label rows)) news = Ok report
    ∧ price_fields report
      = (Some (VFloat (Fin (Close r_last))), Some (VFloat (Fin hi)),
         Some (VFloat (Fin lo)))
    ∧ chronologically_last r_last rows
    ∧ is_max_of hi (col_Close rows)
    ∧ is_min_of lo (col_Close rows).
Proof.
  intros Hne Hsorted Hco.
  destruct (nonempty_snoc rows Hne) as (pre & r & Heq).
  assert (Hcol : col_Close rows ≠ []) by (destruct rows; [congruence | discriminate]).
  destruct (series_max_spec _ Hcol) as (hi & Ehi & Hhi).
  destruct (series_min_spec _ Hcol) as (lo & Elo & Hlo).
  assert (Hlast : iloc_last (col_Close rows) = Ok (Fin (Close r)))
    by (rewrite Heq; apply iloc_last_snoc).
  eexists _, r, hi, lo. split; [|split; [|split; [|split]]].
  - apply (generate_report_rows ticker label rows news _ Hne Hco Hlast).
  - rewrite Ehi, Elo. apply price_fields_rows.
  - rewrite Heq in Hsorted |- *. apply chronological_last_position, Hsorted.
  - exact Hhi.
  - exact Hlo.
Qed.

End Report.

(** C1: the report of the table [yf.download] builds.  With two-level
    labels, [.iloc[-1]], [.max()] and [.min()] of [data['Close']] are
    Series, and under pandas 3 [float] refuses them: on the three sample
    days labelled for AAPL [generate_report] raises a [TypeError] and no
    report is returned.  The same days under flat labels give the last
    close 180, the high 200 and the low 150. *)
Theorem generate_report_provider_frame :
  (∃ msg,
     generate_report pandas_3 "AAPL" (Some provider_frame) ["T1 (S1)"]
     = Raise (TypeError msg))
  ∧ ∃ report,
      generate_report pandas_3 "AAPL" (Some sample_rows) ["T1 (S1)"] = Ok report
      ∧ price_fields report
        = (Some (VFloat (Fin 180)), Some (VFloat (Fin 200)),
           Some (VFloat (Fin 150))).
Proof.
  split.
  - eexists. reflexivity.
  - eexists. split; [reflexivity | by vm_compute].
Qed.

(** C2: [generate_report] can raise.  On a table with the columns of two
    tickers the reductions are Series with two entries, which [float]
    refuses in every pandas; on the table of one ticker with two-level
    labels it refuses them under pandas 3.  In both runs the function
    raises a [TypeError] and returns no report. *)
Theorem generate_report_raises :
  (∀ pd, ∃ msg,
     generate_report pd "AAPL MSFT" (Some two_ticker_frame) []
     = Raise (TypeError msg))
  ∧ ∃ msg,
      generate_report pandas_3 "AAPL" (Some provider_frame) []
      = Raise (TypeError msg).
Proof.
  split.
  - intros pd. eexists. reflexivity.
  - eexists. reflexivity.
Qed.

(** A returned report has its three price fields all absent or all
    present, and then lowest <= last_close <= highest. *)
Lemma generate_report_fields_ordered (pd : pandas) (ticker : string)
    (data : option DataFrame) (news : list string)
    (report : gmap string value) :
  generate_report pd ticker data news = Ok report →
  price_fields report = (None, None, None)
  ∨ ∃ lc hi lo,
      price_fields report
      = (Some (VFloat (Fin lc)), Some (VFloat (Fin hi)), Some (VFloat (Fin lo)))
      ∧ (lo <= hi)%Q ∧ (lo <= lc)%Q ∧ (lc <= hi)%Q.
Proof.
  intros Hrep.
  destruct (generate_report_cases pd ticker data news report Hrep)
    as [[_ ->]|(label & rows & x & _ & Hne & _ & Hx & ->)].
  - left. apply price_fields_no_rows.
  - right.
    assert (Hcol : col_Close rows ≠ [])
      by (destruct rows; [congruence | discriminate]).
    destruct (series_max_spec _ Hcol) as (hi & Ehi & Hin_hi & Hhi).
    destruct (series_min_spec _ Hcol) as (lo & Elo & Hin_lo & Hlo).
    destruct (iloc_last_total _ Hcol) as (x' & Hx' & Hin_x).
    rewrite Hx in Hx'. injection Hx' as <-.
    exists x, hi, lo. split; [|split; [|split]].
    + rewrite Ehi, Elo. apply price_fields_rows.
    + apply Hhi, Hin_lo.
    + apply Hlo, Hin_x.
    + apply Hhi, Hin_x.
Qed.

(** ** [fetch_stock_data] *)

(** C3: [fetch_stock_data] always returns; when the provider answers with
    a table without rows it reports "No stock data found for this
    ticker." and returns [None]; when the provider call raises [e] it
    reports "Error fetching stock data: " followed by the message of [e]
    and returns [None]. *)
Theorem fetch_stock_data_contains_failures (w : world) (ticker : string) :
  (∃ data, outcome (fetch_stock_data w ticker) = Ok data)
  ∧ (∀ table,
       yf_download w ticker "6mo" true = Ok table →
       empty table = true →
       fetch_stock_data w ticker
       = ([YfDownload ticker "6mo" true;
           StError "No stock data found for this ticker."],
          Ok None))
  ∧ (∀ e,
       yf_download w ticker "6mo" true = Raise e →
       fetch_stock_data w ticker
       = ([YfDownload ticker "6mo" true;
           StError ("Error fetching stock data: " +:+ str_exn e)],
          Ok None)).
Proof.
  unfold fetch_stock_data, yf_download_call, try_except, bind.
  split; [|split].
  - destruct (yf_download w ticker "6mo" true) as [table|e]; simpl.
    + destruct (empty table); simpl; eauto.
    + eauto.
  - intros table -> ->. reflexivity.
  - intros e ->. reflexivity.
Qed.

Lemma fetch_stock_data_contains_failures_witness :
  fetch_stock_data (sample_world (Ok (Flat [])) (Raise connection_error))
                   "ZZZZINVALID"
  = ([YfDownload "ZZZZINVALID" "6mo" true;
      StError "No stock data found for this ticker."],
     Ok None)
  ∧ fetch_stock_data (sample_world (Raise connection_error) (Raise connection_error)) "AAPL"
    = ([YfDownload "AAPL" "6mo" true;
        StError ("Error fetching stock data: " +:+ str_exn connection_error)],
       Ok None).
Proof.
  split.
  - apply (proj1 (proj2 (fetch_stock_data_contains_failures
                           (sample_world (Ok (Flat [])) (Raise connection_error))
                           "ZZZZINVALID")) (Flat [])); reflexivity.
  - apply (proj2 (proj2 (fetch_stock_data_contains_failures
                           (sample_world (Raise connection_error)
                                         (Raise connection_error))
                           "AAPL")) connection_error); reflexivity.
Defined.

(** ** [fetch_news] *)

Section Comprehension.

Context {A B : Type} (f : A → result B).

Lemma comprehension_length xs : ∀ ys,
  comprehension f xs = Ok ys → length ys = length xs.
Proof.
  induction xs as [|x xs IH]; simpl; intros ys H.
  - injection H as <-. reflexivity.
  - destruct (f x) as [y|e]; simpl in H; [|discriminate].
    destruct (comprehension f xs) as [ys'|e]; simpl in H; [|discriminate].
    injection H as <-. simpl. f_equal. apply IH. reflexivity.
Qed.

(** One entry that raises is enough for the whole list to raise. *)
Lemma comprehension_raises xs :
  Exists (λ x, ∃ e, f x = Raise e) xs → ∃ e, comprehension f xs = Raise e.
Proof.
  induction 1 as [x xs [e He]|x xs _ [e IH]]; simpl.
  - rewrite He. simpl. eauto.
  - destruct (f x) as [y|e']; simpl; [|eauto].
    rewrite IH. simpl. eauto.
Qed.

Lemma comprehension_all_ok xs ys :
  Forall2 (λ x y, f x = Ok y) xs ys → comprehension f xs = Ok ys.
Proof.
  induction 1 as [|x y xs ys Hx _ IH]; simpl; [reflexivity|].
  rewrite Hx. simpl. rewrite IH. reflexivity.
Qed.

(** When no entry can be rendered, the result is empty or an exception:
    never a list with something in it. *)
Lemma comprehension_none_ok xs :
  Forall (λ x, ∃ e, f x = Raise e) xs →
  comprehension f xs = Ok [] ∨ ∃ e, comprehension f xs = Raise e.
Proof.
  destruct 1 as [|x xs [e He] _]; simpl; [auto|].
  right. rewrite He. simpl. eauto.
Qed.

End Comprehension.

Lemma forallb_false {A} (p : A → bool) (l : list A) :
  forallb p l = false → Exists (λ x, p x = false) l.
Proof.
  induction l as [|x l IH]; simpl; [discriminate|].
  destruct (p x) eqn:E; simpl; [|by left].
  intros H. right. apply IH, H.
Qed.

Section News.

Variable w : world.

Lemma headline_article (art : val) (tn : string * string) :
  is_article art tn → headline w art = Ok (headline_text tn).
Proof.
  intros (d & src & -> & Ht & Hs & Hn).
  unfold headline. simpl. rewrite Ht. simpl. rewrite Hs. simpl.
  rewrite Hn. reflexivity.
Qed.

Lemma headline_raises (art : val) :
  has_fields art = false → ∃ e, headline w art = Raise e.
Proof.
  unfold headline, has_fields.
  destruct art as [| | | | |l|d]; simpl; eauto.
  destruct (dict_lookup "title" d) as [title|]; simpl; [|eauto].
  destruct (dict_lookup "source" d) as [[| | | | |l|src]|]; simpl; eauto.
  destruct (dict_lookup "name" src) as [name|]; simpl; [discriminate | eauto].
Qed.

Lemma headline_renders (art : val) :
  has_fields art = true → ∃ item, headline w art = Ok item.
Proof.
  unfold headline, has_fields.
  destruct art as [| | | | |l|d]; try discriminate.
  simpl. destruct (dict_lookup "title" d) as [title|]; [|discriminate].
  destruct (dict_lookup "source" d) as [[| | | | |l|src]|]; try discriminate.
  simpl. destruct (dict_lookup "name" src) as [name|]; simpl;
    [eauto | discriminate].
Qed.

Lemma chars_strings (s : string) : Forall (λ v, ∃ e, headline w v = Raise e) (chars s).
Proof.
  induction s; simpl; constructor; [|assumption].
  apply headline_raises. reflexivity.
Qed.

Lemma keys_strings (d : list (string * val)) :
  Forall (λ v, ∃ e, headline w v = Raise e) (map (λ kv, PStr kv.1) d).
Proof.
  induction d; simpl; constructor; [|assumption].
  apply headline_raises. reflexivity.
Qed.

(** [fetch_news] once the credential has passed the first test. *)
Lemma fetch_news_unfold (ticker : string) (api_key : credential) (limit : Z) :
  falsy api_key = false →
  fetch_news w ticker api_key limit =
  match requests_get w (news_url ticker api_key limit) with
  | Raise e => fetch_failed (news_url ticker api_key limit) e
  | Ok resp =>
      if (status_code resp =? 200)%Z
      then articles_extracted w (news_url ticker api_key limit) resp
      else status_rejected (news_url ticker api_key limit) resp
  end.
Proof.
  intros Hkey. unfold fetch_news. rewrite Hkey.
  unfold requests_get_call, try_except, bind.
  destruct (requests_get w (news_url ticker api_key limit)) as [resp|e];
    [|reflexivity].
  destruct (status_code resp =? 200)%Z; [|reflexivity].
  unfold articles_extracted, parse_articles, lift. simpl.
  destruct (json resp) as [body|e]; [|reflexivity]. simpl.
  destruct (get body "articles" (PList [])) as [articles|e]; [|reflexivity].
  simpl.
  destruct (iterate articles) as [arts|e]; [|reflexivity]. simpl.
  destruct (comprehension (headline w) arts); reflexivity.
Qed.

Lemma fetch_news_falsy (ticker : string) (api_key : credential) (limit : Z) :
  falsy api_key = true → fetch_news w ticker api_key limit = ([], Ok []).
Proof. intros H. unfold fetch_news. rewrite H. reflexivity. Qed.

(** The function returns, whatever the providers do. *)
Lemma fetch_news_returns (ticker : string) (api_key : credential) (limit : Z) :
  ∃ news_list, outcome (fetch_news w ticker api_key limit) = Ok news_list.
Proof.
  destruct (falsy api_key) eqn:Hkey.
  - rewrite fetch_news_falsy by assumption. simpl. eauto.
  - rewrite fetch_news_unfold by assumption.
    destruct (requests_get w _) as [resp|e]; [|simpl; eauto].
    destruct (status_code resp =? 200)%Z; [|simpl; eauto].
    unfold articles_extracted.
    destruct (parse_articles w resp); simpl; eauto.
Qed.

(** An entry without the fields makes the whole parse raise. *)
Lemma parse_articles_malformed (resp : response) d arts :
  json resp = Ok (PDict d) →
  dict_lookup "articles" d = Some (PList arts) →
  Exists (λ art, has_fields art = false) arts →
  ∃ e, parse_articles w resp = Raise e.
Proof.
  intros Hj Ha Hex. unfold parse_articles. rewrite Hj. simpl.
  rewrite Ha. simpl. apply comprehension_raises.
  eapply Exists_impl; [exact Hex|]. intros art. apply headline_raises.
Qed.

Lemma parse_articles_well_formed (resp : response) d arts fields :
  json resp = Ok (PDict d) →
  dict_lookup "articles" d = Some (PList arts) →
  Forall2 is_article arts fields →
  parse_articles w resp = Ok (map headline_text fields).
Proof.
  intros Hj Ha Hall. unfold parse_articles. rewrite Hj. simpl.
  rewrite Ha. simpl. apply comprehension_all_ok. clear Ha.
  induction Hall as [|art tn arts fields Hart _ IH]; simpl; constructor.
  - apply headline_article, Hart.
  - exact IH.
Qed.

(** A body of another shape parses to nothing, or does not parse. *)
Lemma parse_articles_other_shape (resp : response) body :
  json resp = Ok body →
  articles_shape body = false →
  parse_articles w resp = Ok [] ∨ ∃ e, parse_articles w resp = Raise e.
Proof.
  intros Hj Hshape. unfold parse_articles. rewrite Hj. simpl.
  unfold articles_shape in Hshape.
  destruct body as [| | | | |l|d]; simpl; eauto.
  destruct (dict_lookup "articles" d) as [[| | | |s|arts|d']|]; simpl; eauto.
  - apply comprehension_none_ok, chars_strings.
  - right. apply comprehension_raises.
    eapply Exists_impl; [apply forallb_false, Hshape|].
    intros art. apply headline_raises.
  - apply comprehension_none_ok, keys_strings.
Qed.

(** The parse yields at most one headline per entry of the array. *)
Lemma parse_articles_length (resp : response) news_list :
  parse_articles w resp = Ok news_list →
  news_list = []
  ∨ ∃ d arts, json resp = Ok (PDict d)
              ∧ dict_lookup "articles" d = Some (PList arts)
              ∧ length news_list = length arts.
Proof.
  unfold parse_articles. destruct (json resp) as [body|e]; [|discriminate].
  simpl. destruct body as [| | | | |l|d]; try discriminate. simpl.
  destruct (dict_lookup "articles" d) as [[| | | |s|arts|d']|] eqn:Ha;
    simpl; try discriminate.
  - intros H. left.
    destruct (comprehension_none_ok (headline w) _ (chars_strings s)) as [E|[e E]];
      rewrite E in H; congruence.
  - intros H. right. exists d, arts. repeat split; [exact Ha|].
    eapply comprehension_length, H.
  - intros H. left.
    destruct (comprehension_none_ok (headline w) _ (keys_strings d')) as [E|[e E]];
      rewrite E in H; congruence.
  - intros H. left. congruence.
Qed.

End News.

(** C4: [fetch_news] never raises.  Once the credential lets the call go
    out, an exception of [requests.get], of the JSON decoding, or of any
    step of the parse ends in the empty list with the warning "Failed to
    fetch news: ..."; in particular, one entry of the articles array
    without its title or its nested source name discards the whole
    answer: the result is empty, not the headlines of the other entries. *)
Theorem fetch_news_contains_failures (w : world) (ticker : string)
    (api_key : credential) (limit : Z) :
  (∃ news_list, outcome (fetch_news w ticker api_key limit) = Ok news_list)
  ∧ (falsy api_key = false →
     (∀ e,
        requests_get w (news_url ticker api_key limit) = Raise e →
        fetch_news w ticker api_key limit
        = fetch_failed (news_url ticker api_key limit) e)
     ∧ (∀ resp e,
          requests_get w (news_url ticker api_key limit) = Ok resp →
          status_code resp = 200%Z →
          json resp = Raise e →
          fetch_news w ticker api_key limit
          = fetch_failed (news_url ticker api_key limit) e)
     ∧ (∀ resp e,
          requests_get w (news_url ticker api_key limit) = Ok resp →
          status_code resp = 200%Z →
          parse_articles w resp = Raise e →
          fetch_news w ticker api_key limit
          = fetch_failed (news_url ticker api_key limit) e)
     ∧ (∀ resp d arts,
          requests_get w (news_url ticker api_key limit) = Ok resp →
          status_code resp = 200%Z →
          json resp = Ok (PDict d) →
          dict_lookup "articles" d = Some (PList arts) →
          Exists (λ art, has_fields art = false) arts →
          ∃ e, fetch_news w ticker api_key limit
               = fetch_failed (news_url ticker api_key limit) e)).
Proof.
  split; [apply fetch_news_returns|].
  intros Hkey. rewrite (fetch_news_unfold w ticker api_key limit Hkey).
  split; [|split; [|split]].
  - intros e ->. reflexivity.
  - intros resp e -> -> Hj. simpl.
    unfold articles_extracted, parse_articles. rewrite Hj. reflexivity.
  - intros resp e -> -> Hp. simpl.
    unfold articles_extracted. rewrite Hp. reflexivity.
  - intros resp d arts -> -> Hj Ha Hex. simpl.
    destruct (parse_articles_malformed w resp d arts Hj Ha Hex) as [e He].
    exists e. unfold articles_extracted. rewrite He. reflexivity.
Qed.

Lemma fetch_news_contains_failures_witness :
  fetch_news (sample_world (Ok sample_rows) (Raise connection_error))
             "AAPL" (Some "demo-key") 5
  = fetch_failed (news_url "AAPL" (Some "demo-key") 5) connection_error
  ∧ ∃ e,
      fetch_news
        (sample_world (Ok sample_rows)
           (answer 200 (sample_body [sample_article "T1" "S1";
                                     PDict [("title", PStr "T2")]])))
        "AAPL" (Some "demo-key") 5
      = fetch_failed (news_url "AAPL" (Some "demo-key") 5) e.
Proof.
  split.
  - apply (proj1 (proj2 (fetch_news_contains_failures
                           (sample_world (Ok sample_rows) (Raise connection_error))
                           "AAPL" (Some "demo-key") 5) eq_refl)).
    reflexivity.
  - eapply (proj2 (proj2 (proj2 (proj2 (fetch_news_contains_failures
                           (sample_world (Ok sample_rows)
                              (answer 200 (sample_body
                                 [sample_article "T1" "S1";
                                  PDict [("title", PStr "T2")]])))
                           "AAPL" (Some "demo-key") 5) eq_refl)))).
    + reflexivity.
    + reflexivity.
    + reflexivity.
    + reflexivity.
    + right. left. reflexivity.
Defined.

(** C5, as worded, fails: a 201 answer is a 2xx answer, and the function
    rejects it with the status warning although its body carries
    articles. *)
Lemma status_201_is_rejected : ¬ status_policy is_2xx.
Proof.
  intros H.
  specialize (H (sample_world (Ok sample_rows)
                   (answer 201 (sample_body three_articles)))
                "AAPL" (Some "demo-key") 5%Z
                {| status_code := 201; json := Ok (sample_body three_articles) |}
                eq_refl eq_refl).
  vm_compute in H. discriminate H.
Qed.

(** C5, amended: for a credential that lets the call go out, an answer
    whose status is not 200 ends in the warning "NewsAPI returned status
    <code>" and the empty list, and an answer whose status is 200 goes on
    to the extraction of the articles array. *)
Theorem fetch_news_status_policy (w : world) (ticker : string)
    (api_key : credential) (limit : Z) (resp : response) :
  falsy api_key = false →
  requests_get w (news_url ticker api_key limit) = Ok resp →
  (status_code resp ≠ 200%Z →
   fetch_news w ticker api_key limit
   = status_rejected (news_url ticker api_key limit) resp)
  ∧ (status_code resp = 200%Z →
     fetch_news w ticker api_key limit
     = articles_extracted w (news_url ticker api_key limit) resp).
Proof.
  intros Hkey Hget.
  rewrite (fetch_news_unfold w ticker api_key limit Hkey), Hget.
  split; intros Hs.
  - apply Z.eqb_neq in Hs. rewrite Hs. reflexivity.
  - apply Z.eqb_eq in Hs. rewrite Hs. reflexivity.
Qed.

Lemma fetch_news_status_policy_witness :
  fetch_news (sample_world (Ok sample_rows)
                (answer 429 (PDict [("status", PStr "error")])))
             "AAPL" (Some "demo-key") 5
  = ([HttpGet (news_url "AAPL" (Some "demo-key") 5);
      StWarning "NewsAPI returned status 429"],
     Ok [])
  ∧ fetch_news (sample_world (Ok sample_rows)
                  (answer 200 (sample_body three_articles)))
               "AAPL" (Some "demo-key") 5
    = ([HttpGet (news_url "AAPL" (Some "demo-key") 5)],
       Ok ["T1 (S1)"; "T2 (S2)"; "T3 (S3)"]).
Proof.
  split.
  - apply (proj1 (fetch_news_status_policy
                    (sample_world (Ok sample_rows)
                       (answer 429 (PDict [("status", PStr "error")])))
                    "AAPL" (Some "demo-key") 5
                    {| status_code := 429;
                       json := Ok (PDict [("status", PStr "error")]) |}
                    eq_refl eq_refl)).
    discriminate.
  - apply (proj2 (fetch_news_status_policy
                    (sample_world (Ok sample_rows)
                       (answer 200 (sample_body three_articles)))
                    "AAPL" (Some "demo-key") 5
                    {| status_code := 200;
                       json := Ok (sample_body three_articles) |}
                    eq_refl eq_refl)).
    reflexivity.
Defined.

(** C6: without a credential [fetch_news] returns the empty list and
    makes no call to the provider, whatever the ticker and the limit. *)
Theorem fetch_news_absent_credential (w : world) (ticker : string) (limit : Z) :
  outcome (fetch_news w ticker None limit) = Ok []
  ∧ no_network_call (fetch_news w ticker None limit).
Proof.
  rewrite (fetch_news_falsy w ticker None limit eq_refl).
  split; [reflexivity | constructor].
Qed.

(** C7, as worded, fails: the articles of a 201 answer are well formed,
    and none of them is rendered. *)
Lemma articles_of_201_not_rendered : ¬ articles_rendered is_2xx.
Proof.
  intros H.
  specialize (H (sample_world (Ok sample_rows)
                   (answer 201 (sample_body three_articles)))
                "AAPL" (Some "demo-key") 5%Z
                {| status_code := 201; json := Ok (sample_body three_articles) |}
                (sample_fields three_articles) three_articles
                [("T1", "S1"); ("T2", "S2"); ("T3", "S3")]
                eq_refl eq_refl eq_refl eq_refl eq_refl).
  assert (Hart : Forall2 is_article three_articles
                   [("T1", "S1"); ("T2", "S2"); ("T3", "S3")]).
  { repeat (constructor; [do 2 eexists; repeat split; reflexivity|]).
    constructor. }
  specialize (H Hart). vm_compute in H. discriminate H.
Qed.

(** C7, amended: for an answer with status 200 whose articles array holds
    well-formed articles, [fetch_news] returns one string
    ["{title} ({source name})"] per article, built from the title and the
    nested source name of that article, in the order of the array: nothing
    is sorted, merged or left out. *)
Theorem fetch_news_renders_articles (w : world) (ticker : string)
    (api_key : credential) (limit : Z) (resp : response)
    (d : list (string * val)) (arts : list val)
    (fields : list (string * string)) :
  falsy api_key = false →
  requests_get w (news_url ticker api_key limit) = Ok resp →
  status_code resp = 200%Z →
  json resp = Ok (PDict d) →
  dict_lookup "articles" d = Some (PList arts) →
  Forall2 is_article arts fields →
  outcome (fetch_news w ticker api_key limit) = Ok (map headline_text fields).
Proof.
  intros Hkey Hget Hs Hj Ha Hall.
  rewrite (fetch_news_unfold w ticker api_key limit Hkey), Hget, Hs. simpl.
  unfold articles_extracted.
  rewrite (parse_articles_well_formed w resp d arts fields Hj Ha Hall).
  reflexivity.
Qed.

Lemma fetch_news_renders_articles_witness :
  outcome (fetch_news (sample_world (Ok sample_rows)
                         (answer 200 (sample_body three_articles)))
                      "AAPL" (Some "demo-key") 5)
  = Ok ["T1 (S1)"; "T2 (S2)"; "T3 (S3)"].
Proof.
  apply (fetch_news_renders_articles
           (sample_world (Ok sample_rows)
              (answer 200 (sample_body three_articles)))
           "AAPL" (Some "demo-key") 5
           {| status_code := 200; json := Ok (sample_body three_articles) |}
           (sample_fields three_articles) three_articles
           [("T1", "S1"); ("T2", "S2"); ("T3", "S3")]).
  - reflexivity.
  - reflexivity.
  - reflexivity.
  - reflexivity.
  - reflexivity.
  - repeat (constructor; [do 2 eexists; repeat split; reflexivity|]).
    constructor.
Defined.

(** C8, as worded, fails: asked for one headline, the function returns
    the two that the provider sent. *)
Lemma two_articles_for_limit_one : ¬ length_within_limit.
Proof.
  intros H.
  specialize (H (sample_world (Ok sample_rows)
                   (answer 200 (sample_body [sample_article "T1" "S1";
                                             sample_article "T2" "S2"])))
                "AAPL" (Some "demo-key") 1%Z ["T1 (S1)"; "T2 (S2)"] eq_refl).
  simpl in H. lia.
Qed.

(** C8, amended: [fetch_news] returns a list that is never longer than
    the articles array of the provider's answer; it is therefore within
    [limit] whenever the provider sent at most [limit] articles. *)
Theorem fetch_news_length_bounded_by_response (w : world) (ticker : string)
    (api_key : credential) (limit : Z) :
  ∃ news_list,
    outcome (fetch_news w ticker api_key limit) = Ok news_list
    ∧ (length news_list
       ≤ articles_in_response w (news_url ticker api_key limit))%nat
    ∧ ((Z.of_nat (articles_in_response w (news_url ticker api_key limit))
        <= limit)%Z →
       (Z.of_nat (length news_list) <= limit)%Z).
Proof.
  assert (Hlen : ∃ news_list,
             outcome (fetch_news w ticker api_key limit) = Ok news_list
             ∧ (length news_list
                ≤ articles_in_response w (news_url ticker api_key limit))%nat).
  { destruct (falsy api_key) eqn:Hkey.
    - rewrite fetch_news_falsy by assumption.
      exists []. split; [reflexivity | simpl; lia].
    - rewrite (fetch_news_unfold w ticker api_key limit Hkey).
      unfold articles_in_response.
      destruct (requests_get w _) as [resp|e];
        [|exists []; split; [reflexivity | simpl; lia]].
      destruct (status_code resp =? 200)%Z;
        [|exists []; split; [reflexivity | simpl; lia]].
      unfold articles_extracted.
      destruct (parse_articles w resp) as [news_list|e] eqn:Hp;
        [|exists []; split; [reflexivity | simpl; lia]].
      exists news_list. split; [reflexivity|].
      destruct (parse_articles_length w resp news_list Hp)
        as [->|(d & arts & Hj & Ha & Hl)]; [simpl; lia|].
      rewrite Hj, Ha, Hl. lia. }
  destruct Hlen as (news_list & Hout & Hle).
  exists news_list. split; [exact Hout|]. split; [exact Hle | lia].
Qed.

Lemma fetch_news_length_bounded_by_response_witness :
  ∃ news_list,
    outcome (fetch_news (sample_world (Ok sample_rows)
                           (answer 200 (sample_body three_articles)))
                        "AAPL" (Some "demo-key") 5)
    = Ok news_list
    ∧ (Z.of_nat (length news_list) <= 5)%Z.
Proof.
  destruct (fetch_news_length_bounded_by_response
              (sample_world (Ok sample_rows)
                 (answer 200 (sample_body three_articles)))
              "AAPL" (Some "demo-key") 5) as (news_list & Hout & _ & Hlim).
  exists news_list. split; [exact Hout|].
  apply Hlim. vm_compute. discriminate.
Defined.

(** C9: for a 2xx answer whose decoded body is not an object with an
    ["articles"] list of entries that carry a title and a nested source
    name (no ["articles"] key, a body that is not an object, an
    ["articles"] that is not a list, or a list with an entry that lacks
    those fields), [fetch_news] returns the empty list. *)
Theorem fetch_news_other_shape (w : world) (ticker : string)
    (api_key : credential) (limit : Z) (resp : response) (body : val) :
  falsy api_key = false →
  requests_get w (news_url ticker api_key limit) = Ok resp →
  is_2xx (status_code resp) = true →
  json resp = Ok body →
  articles_shape body = false →
  outcome (fetch_news w ticker api_key limit) = Ok [].
Proof.
  intros Hkey Hget _ Hj Hshape.
  rewrite (fetch_news_unfold w ticker api_key limit Hkey), Hget.
  destruct (status_code resp =? 200)%Z; [|reflexivity].
  unfold articles_extracted.
  destruct (parse_articles_other_shape w resp body Hj Hshape) as [E|[e E]];
    rewrite E; reflexivity.
Qed.

Lemma fetch_news_other_shape_witness :
  outcome (fetch_news (sample_world (Ok sample_rows)
                         (answer 200 (PDict [("status", PStr "ok");
                                             ("totalResults", PInt 0)])))
                      "AAPL" (Some "demo-key") 5)
  = Ok []
  ∧ outcome (fetch_news (sample_world (Ok sample_rows)
                           (answer 200 (PList [sample_article "T1" "S1"])))
                        "AAPL" (Some "demo-key") 5)
    = Ok [].
Proof.
  split.
  - apply (fetch_news_other_shape
             (sample_world (Ok sample_rows)
                (answer 200 (PDict [("status", PStr "ok");
                                    ("totalResults", PInt 0)])))
             "AAPL" (Some "demo-key") 5
             {| status_code := 200;
                json := Ok (PDict [("status", PStr "ok");
                                   ("totalResults", PInt 0)]) |}
             (PDict [("status", PStr "ok"); ("totalResults", PInt 0)]));
      reflexivity.
  - apply (fetch_news_other_shape
             (sample_world (Ok sample_rows)
                (answer 200 (PList [sample_article "T1" "S1"])))
             "AAPL" (Some "demo-key") 5
             {| status_code := 200;
                json := Ok (PList [sample_article "T1" "S1"]) |}
             (PList [sample_article "T1" "S1"]));
      reflexivity.
Defined.

(** C10: an empty-string credential is treated like an absent one: the
    test is on falsiness, so the run is the same, it returns the empty
    list and makes no call to the provider. *)
Theorem fetch_news_empty_credential (w : world) (ticker : string) (limit : Z) :
  fetch_news w ticker (Some "") limit = fetch_news w ticker None limit
  ∧ outcome (fetch_news w ticker (Some "") limit) = Ok []
  ∧ no_network_call (fetch_news w ticker (Some "") limit).
Proof.
  rewrite (fetch_news_falsy w ticker (Some "") limit eq_refl).
  rewrite (fetch_news_falsy w ticker None limit eq_refl).
  split; [reflexivity|]. split; [reflexivity | constructor].
Qed.

(** * Further properties of the pipeline *)

(** ** [fetch_stock_data] *)

Lemma fetch_stock_data_cases (w : world) (ticker : string) :
  fetch_stock_data w ticker =
  match yf_download w ticker "6mo" true with
  | Ok table =>
      if empty table
      then ([YfDownload ticker "6mo" true;
             StError "No stock data found for this ticker."], Ok None)
      else ([YfDownload ticker "6mo" true], Ok (Some table))
  | Raise e =>
      ([YfDownload ticker "6mo" true;
        StError ("Error fetching stock data: " +:+ str_exn e)], Ok None)
  end.
Proof.
  unfold fetch_stock_data, yf_download_call, try_except, bind.
  destruct (yf_download w ticker "6mo" true) as [table|e]; [|reflexivity].
  destruct (empty table); reflexivity.
Qed.

(** X1: when the provider answers with a table that has rows,
    [fetch_stock_data] hands that table back unchanged, and shows no
    message: the download is the only event. *)
Theorem fetch_stock_data_returns_table (w : world) (ticker : string)
    (table : DataFrame) :
  yf_download w ticker "6mo" true = Ok table →
  empty table = false →
  fetch_stock_data w ticker
  = ([YfDownload ticker "6mo" true], Ok (Some table)).
Proof.
  intros Hdl Hne. rewrite fetch_stock_data_cases, Hdl, Hne. reflexivity.
Qed.

Lemma fetch_stock_data_returns_table_witness :
  fetch_stock_data (sample_world (Ok sample_rows) (Raise connection_error)) "AAPL"
  = ([YfDownload "AAPL" "6mo" true], Ok (Some sample_rows)).
Proof.
  apply (fetch_stock_data_returns_table
           (sample_world (Ok sample_rows) (Raise connection_error))
           "AAPL" sample_rows).
  - reflexivity.
  - reflexivity.
Defined.

(** X2: a table that [fetch_stock_data] returns always has rows, and is
    the table of the provider: a table without rows comes back as [None],
    never as an empty table. *)
Theorem fetch_stock_data_some_has_rows (w : world) (ticker : string)
    (data : DataFrame) :
  outcome (fetch_stock_data w ticker) = Ok (Some data) →
  empty data = false ∧ yf_download w ticker "6mo" true = Ok data.
Proof.
  rewrite fetch_stock_data_cases.
  destruct (yf_download w ticker "6mo" true) as [table|e]; [|discriminate].
  destruct (empty table) eqn:He; simpl; [discriminate|].
  intros H. injection H as <-. split; [exact He | reflexivity].
Qed.

Lemma fetch_stock_data_some_has_rows_witness :
  empty sample_rows = false
  ∧ yf_download (sample_world (Ok sample_rows) (Raise connection_error))
                "AAPL" "6mo" true
    = Ok sample_rows.
Proof.
  apply (fetch_stock_data_some_has_rows
           (sample_world (Ok sample_rows) (Raise connection_error)) "AAPL").
  reflexivity.
Defined.

(** The price fetch sends no request and shows no warning. *)
Lemma fetch_stock_data_quiet (w : world) (ticker : string) :
  Forall (λ ev, is_http_get ev = false ∧ is_st_warning ev = false)
    (trace (fetch_stock_data w ticker)).
Proof.
  rewrite fetch_stock_data_cases.
  destruct (yf_download w ticker "6mo" true) as [table|e].
  - destruct (empty table); simpl; repeat constructor.
  - simpl. repeat constructor.
Qed.

(** X3: every run of [fetch_stock_data] makes one download call, for the
    six-month window with adjusted prices, and shows at most one error
    message after it: there is no second attempt. *)
Theorem fetch_stock_data_single_call (w : world) (ticker : string) :
  ∃ rest,
    trace (fetch_stock_data w ticker) = YfDownload ticker "6mo" true :: rest
    ∧ (rest = [] ∨ ∃ msg, rest = [StError msg]).
Proof.
  rewrite fetch_stock_data_cases.
  destruct (yf_download w ticker "6mo" true) as [table|e].
  - destruct (empty table); simpl; eauto.
  - simpl. eauto.
Qed.

(** ** [fetch_news] *)

(** X4: with a credential that passes the first test, [fetch_news] sends
    one GET request, to the URL built from the ticker, the limit and the
    credential, and shows at most one warning after it: there is no
    retry. *)
Theorem fetch_news_single_request (w : world) (ticker : string)
    (api_key : credential) (limit : Z) :
  falsy api_key = false →
  ∃ rest,
    trace (fetch_news w ticker api_key limit)
    = HttpGet (news_url ticker api_key limit) :: rest
    ∧ (rest = [] ∨ ∃ msg, rest = [StWarning msg]).
Proof.
  intros Hkey. rewrite (fetch_news_unfold w ticker api_key limit Hkey).
  destruct (requests_get w _) as [resp|e]; [|simpl; eauto].
  destruct (status_code resp =? 200)%Z; [|simpl; eauto].
  unfold articles_extracted.
  destruct (parse_articles w resp); simpl; eauto.
Qed.

Lemma fetch_news_single_request_witness :
  ∃ rest,
    trace (fetch_news (sample_world (Ok sample_rows) (Raise connection_error))
                      "AAPL" (Some "demo-key") 5)
    = HttpGet (news_url "AAPL" (Some "demo-key") 5) :: rest
    ∧ (rest = [] ∨ ∃ msg, rest = [StWarning msg]).
Proof.
  apply (fetch_news_single_request
           (sample_world (Ok sample_rows) (Raise connection_error))
           "AAPL" (Some "demo-key") 5).
  reflexivity.
Defined.

(** X5: headlines and warnings exclude each other: when [fetch_news]
    returns at least one headline, the request is its only event, the
    answer had status 200 and its parse gave exactly that list. *)
Theorem fetch_news_headlines_without_warning (w : world) (ticker : string)
    (api_key : credential) (limit : Z) (item : string) (items : list string) :
  outcome (fetch_news w ticker api_key limit) = Ok (item :: items) →
  trace (fetch_news w ticker api_key limit)
  = [HttpGet (news_url ticker api_key limit)]
  ∧ ∃ resp,
      requests_get w (news_url ticker api_key limit) = Ok resp
      ∧ status_code resp = 200%Z
      ∧ parse_articles w resp = Ok (item :: items).
Proof.
  destruct (falsy api_key) eqn:Hkey.
  { rewrite fetch_news_falsy by assumption. discriminate. }
  rewrite (fetch_news_unfold w ticker api_key limit Hkey).
  destruct (requests_get w _) as [resp|e] eqn:Hget; [|discriminate].
  destruct (status_code resp =? 200)%Z eqn:Hs; [|discriminate].
  unfold articles_extracted.
  destruct (parse_articles w resp) as [news_list|e] eqn:Hp; [|discriminate].
  simpl. intros H. injection H as ->.
  split; [reflexivity|]. exists resp.
  split; [reflexivity|]. split; [apply Z.eqb_eq, Hs | exact Hp].
Qed.

Lemma fetch_news_headlines_without_warning_witness :
  trace (fetch_news (sample_world (Ok sample_rows)
                       (answer 200 (sample_body three_articles)))
                    "AAPL" (Some "demo-key") 5)
  = [HttpGet (news_url "AAPL" (Some "demo-key") 5)]
  ∧ ∃ resp,
      requests_get (sample_world (Ok sample_rows)
                      (answer 200 (sample_body three_articles)))
                   (news_url "AAPL" (Some "demo-key") 5)
      = Ok resp
      ∧ status_code resp = 200%Z
      ∧ parse_articles (sample_world (Ok sample_rows)
                          (answer 200 (sample_body three_articles))) resp
        = Ok ["T1 (S1)"; "T2 (S2)"; "T3 (S3)"].
Proof.
  apply (fetch_news_headlines_without_warning
           (sample_world (Ok sample_rows)
              (answer 200 (sample_body three_articles)))
           "AAPL" (Some "demo-key") 5 "T1 (S1)" ["T2 (S2)"; "T3 (S3)"]).
  reflexivity.
Defined.

(** X6: a status-200 body without an ["articles"] key gives the empty
    list in silence (the request is the only event), while a body whose
    ["articles"] is [null] gives the empty list with the warning of a
    failed fetch. *)
Theorem fetch_news_missing_articles_key (w : world) (ticker : string)
    (api_key : credential) (limit : Z) (resp : response)
    (d : list (string * val)) :
  falsy api_key = false →
  requests_get w (news_url ticker api_key limit) = Ok resp →
  status_code resp = 200%Z →
  json resp = Ok (PDict d) →
  (dict_lookup "articles" d = None →
   fetch_news w ticker api_key limit
   = ([HttpGet (news_url ticker api_key limit)], Ok []))
  ∧ (dict_lookup "articles" d = Some PNone →
     fetch_news w ticker api_key limit
     = fetch_failed (news_url ticker api_key limit)
         (TypeError "'NoneType' object is not iterable")).
Proof.
  intros Hkey Hget Hs Hj.
  rewrite (fetch_news_unfold w ticker api_key limit Hkey), Hget, Hs. simpl.
  unfold articles_extracted, parse_articles. rewrite Hj. simpl.
  split; intros ->; reflexivity.
Qed.

Lemma fetch_news_missing_articles_key_witness :
  fetch_news (sample_world (Ok sample_rows)
                (answer 200 (PDict [("status", PStr "ok")])))
             "AAPL" (Some "demo-key") 5
  = ([HttpGet (news_url "AAPL" (Some "demo-key") 5)], Ok [])
  ∧ fetch_news (sample_world (Ok sample_rows)
                  (answer 200 (PDict [("articles", PNone)])))
               "AAPL" (Some "demo-key") 5
    = fetch_failed (news_url "AAPL" (Some "demo-key") 5)
        (TypeError "'NoneType' object is not iterable").
Proof.
  split.
  - apply (proj1 (fetch_news_missing_articles_key
                    (sample_world (Ok sample_rows)
                       (answer 200 (PDict [("status", PStr "ok")])))
                    "AAPL" (Some "demo-key") 5
                    {| status_code := 200;
                       json := Ok (PDict [("status", PStr "ok")]) |}
                    [("status", PStr "ok")]
                    eq_refl eq_refl eq_refl eq_refl)).
    reflexivity.
  - apply (proj2 (fetch_news_missing_articles_key
                    (sample_world (Ok sample_rows)
                       (answer 200 (PDict [("articles", PNone)])))
                    "AAPL" (Some "demo-key") 5
                    {| status_code := 200;
                       json := Ok (PDict [("articles", PNone)]) |}
                    [("articles", PNone)]
                    eq_refl eq_refl eq_refl eq_refl)).
    reflexivity.
Defined.

Section ComprehensionOrder.

Context {A B : Type} (f : A → result B).

Lemma comprehension_total xs :
  Forall (λ x, ∃ y, f x = Ok y) xs → ∃ ys, comprehension f xs = Ok ys.
Proof.
  induction 1 as [|x xs [y Hy] _ [ys IH]]; simpl; [eauto|].
  rewrite Hy. simpl. rewrite IH. simpl. eauto.
Qed.

(** The exception of the whole list is the one of the first entry that
    raises. *)
Lemma comprehension_first_raise good bad rest e :
  Forall (λ x, ∃ y, f x = Ok y) good →
  f bad = Raise e →
  comprehension f (good ++ bad :: rest) = Raise e.
Proof.
  intros Hgood Hbad.
  induction Hgood as [|x xs [y Hy] _ IH]; simpl.
  - rewrite Hbad. reflexivity.
  - rewrite Hy. simpl. rewrite IH. reflexivity.
Qed.

End ComprehensionOrder.

Lemma has_fields_render (w : world) (arts : list val) :
  forallb has_fields arts = true →
  Forall (λ art, ∃ item, headline w art = Ok item) arts.
Proof.
  intros H. rewrite forallb_forall in H. apply List.Forall_forall.
  intros art Hin. apply headline_renders, H, Hin.
Qed.

(** X7: when every entry of a status-200 articles array carries a title
    and a source name, of whatever JSON type, [fetch_news] returns one
    headline per entry, without a warning: no entry is dropped. *)
Theorem fetch_news_keeps_every_entry (w : world) (ticker : string)
    (api_key : credential) (limit : Z) (resp : response)
    (d : list (string * val)) (arts : list val) :
  falsy api_key = false →
  requests_get w (news_url ticker api_key limit) = Ok resp →
  status_code resp = 200%Z →
  json resp = Ok (PDict d) →
  dict_lookup "articles" d = Some (PList arts) →
  forallb has_fields arts = true →
  ∃ news_list,
    fetch_news w ticker api_key limit
    = ([HttpGet (news_url ticker api_key limit)], Ok news_list)
    ∧ length news_list = length arts.
Proof.
  intros Hkey Hget Hs Hj Ha Hall.
  rewrite (fetch_news_unfold w ticker api_key limit Hkey), Hget, Hs. simpl.
  unfold articles_extracted, parse_articles. rewrite Hj. simpl.
  rewrite Ha. simpl.
  destruct (comprehension_total (headline w) arts (has_fields_render w arts Hall))
    as [news_list Hc].
  rewrite Hc. exists news_list. split; [reflexivity|].
  apply (comprehension_length (headline w) arts news_list Hc).
Qed.

Lemma fetch_news_keeps_every_entry_witness :
  ∃ news_list,
    fetch_news (sample_world (Ok sample_rows)
                  (answer 200 (sample_body [sample_article "T1" "S1";
                                            untitled_article "S2"])))
               "AAPL" (Some "demo-key") 5
    = ([HttpGet (news_url "AAPL" (Some "demo-key") 5)], Ok news_list)
    ∧ length news_list = 2.
Proof.
  apply (fetch_news_keeps_every_entry
           (sample_world (Ok sample_rows)
              (answer 200 (sample_body [sample_article "T1" "S1";
                                        untitled_article "S2"])))
           "AAPL" (Some "demo-key") 5
           {| status_code := 200;
              json := Ok (sample_body [sample_article "T1" "S1";
                                       untitled_article "S2"]) |}
           (sample_fields [sample_article "T1" "S1"; untitled_article "S2"])
           [sample_article "T1" "S1"; untitled_article "S2"]);
    reflexivity.
Defined.

Lemma headline_untitled (w : world) (art : val) (n : string) :
  is_untitled art n → headline w art = Ok ("None (" +:+ n +:+ ")").
Proof.
  intros (d & src & -> & Ht & Hs & Hn).
  unfold headline. simpl. rewrite Ht. simpl. rewrite Hs. simpl.
  rewrite Hn. reflexivity.
Qed.

(** X8: a null title is not a malformed entry: an article whose title is
    [null] is kept, and shown as ["None (<source name>)"]. *)
Theorem fetch_news_null_titles (w : world) (ticker : string)
    (api_key : credential) (limit : Z) (resp : response)
    (d : list (string * val)) (arts : list val) (names : list string) :
  falsy api_key = false →
  requests_get w (news_url ticker api_key limit) = Ok resp →
  status_code resp = 200%Z →
  json resp = Ok (PDict d) →
  dict_lookup "articles" d = Some (PList arts) →
  Forall2 is_untitled arts names →
  outcome (fetch_news w ticker api_key limit)
  = Ok (map (λ n, "None (" +:+ n +:+ ")") names).
Proof.
  intros Hkey Hget Hs Hj Ha Hall.
  rewrite (fetch_news_unfold w ticker api_key limit Hkey), Hget, Hs. simpl.
  unfold articles_extracted, parse_articles. rewrite Hj. simpl.
  rewrite Ha. simpl.
  rewrite (comprehension_all_ok (headline w) arts
             (map (λ n, "None (" +:+ n +:+ ")") names)); [reflexivity|].
  clear Ha. induction Hall as [|art n arts names Hart _ IH]; simpl; constructor.
  - apply headline_untitled, Hart.
  - exact IH.
Qed.

Lemma fetch_news_null_titles_witness :
  outcome (fetch_news (sample_world (Ok sample_rows)
                         (answer 200 (sample_body [untitled_article "S1";
                                                   untitled_article "S2"])))
                      "AAPL" (Some "demo-key") 5)
  = Ok ["None (S1)"; "None (S2)"].
Proof.
  apply (fetch_news_null_titles
           (sample_world (Ok sample_rows)
              (answer 200 (sample_body [untitled_article "S1";
                                        untitled_article "S2"])))
           "AAPL" (Some "demo-key") 5
           {| status_code := 200;
              json := Ok (sample_body [untitled_article "S1";
                                       untitled_article "S2"]) |}
           (sample_fields [untitled_article "S1"; untitled_article "S2"])
           [untitled_article "S1"; untitled_article "S2"] ["S1"; "S2"]).
  - reflexivity.
  - reflexivity.
  - reflexivity.
  - reflexivity.
  - reflexivity.
  - repeat (constructor; [do 2 eexists; repeat split; reflexivity|]).
    constructor.
Defined.

(** X9: the warning names the first entry that fails: when the entries
    before it carry their fields and it has no ["title"], the run ends
    with the warning "Failed to fetch news: 'title'" and the empty list,
    whatever the entries after it are. *)
Theorem fetch_news_missing_title_warning (w : world) (ticker : string)
    (api_key : credential) (limit : Z) (resp : response)
    (d : list (string * val)) (good rest : list val)
    (bad : list (string * val)) :
  falsy api_key = false →
  requests_get w (news_url ticker api_key limit) = Ok resp →
  status_code resp = 200%Z →
  json resp = Ok (PDict d) →
  dict_lookup "articles" d = Some (PList (good ++ PDict bad :: rest)) →
  forallb has_fields good = true →
  dict_lookup "title" bad = None →
  fetch_news w ticker api_key limit
  = ([HttpGet (news_url ticker api_key limit);
      StWarning "Failed to fetch news: 'title'"],
     Ok []).
Proof.
  intros Hkey Hget Hs Hj Ha Hgood Hbad.
  rewrite (fetch_news_unfold w ticker api_key limit Hkey), Hget, Hs. simpl.
  unfold articles_extracted, parse_articles. rewrite Hj. simpl.
  rewrite Ha. simpl.
  rewrite (comprehension_first_raise (headline w) good (PDict bad) rest
             (KeyError "title") (has_fields_render w good Hgood)).
  - reflexivity.
  - unfold headline. simpl. rewrite Hbad. reflexivity.
Qed.

Lemma fetch_news_missing_title_warning_witness :
  fetch_news (sample_world (Ok sample_rows)
                (answer 200 (sample_body [sample_article "T1" "S1";
                                          PDict [("url", PStr "u")];
                                          sample_article "T3" "S3"])))
             "AAPL" (Some "demo-key") 5
  = ([HttpGet (news_url "AAPL" (Some "demo-key") 5);
      StWarning "Failed to fetch news: 'title'"],
     Ok []).
Proof.
  apply (fetch_news_missing_title_warning
           (sample_world (Ok sample_rows)
              (answer 200 (sample_body [sample_article "T1" "S1";
                                        PDict [("url", PStr "u")];
                                        sample_article "T3" "S3"])))
           "AAPL" (Some "demo-key") 5
           {| status_code := 200;
              json := Ok (sample_body [sample_article "T1" "S1";
                                       PDict [("url", PStr "u")];
                                       sample_article "T3" "S3"]) |}
           (sample_fields [sample_article "T1" "S1";
                           PDict [("url", PStr "u")];
                           sample_article "T3" "S3"])
           [sample_article "T1" "S1"] [sample_article "T3" "S3"]
           [("url", PStr "u")]);
    reflexivity.
Defined.

(** ** [generate_report] *)

Lemma empty_getitem_Close (data : DataFrame) :
  empty data = sel_empty (getitem_Close data).
Proof.
  destruct data as [[|r rows]|[|[t [|r rows]] tables]]; reflexivity.
Qed.

(** What a returned report is, on the table of one ticker. *)
Lemma generate_report_one_ticker (pd : pandas) ticker label (rows : list row)
    news report :
  generate_report pd ticker (Some (one_ticker label rows)) news = Ok report →
  (rows = [] ∧ report = <["news" := VNews news]> ∅)
  ∨ (rows ≠ [] ∧ coercible pd label = true
     ∧ ∃ x, iloc_last (col_Close rows) = Ok (Fin x)
            ∧ report
              = <["news" := VNews news]>
                  (<["lowest" := VFloat (series_min (col_Close rows))]>
                     (<["highest" := VFloat (series_max (col_Close rows))]>
                        (<["last_close" := VFloat (Fin x)]> ∅)))).
Proof.
  intros Hrep. destruct rows as [|r rows].
  - left. split; [reflexivity|].
    rewrite generate_report_no_rows in Hrep; [congruence|].
    right. eexists. split; [reflexivity|]. destruct label; reflexivity.
  - right. split; [discriminate|].
    destruct (coercible pd label) eqn:Hco.
    + split; [reflexivity|].
      destruct (iloc_last_total (col_Close (r :: rows))) as (x & Hx & _);
        [discriminate|].
      exists x. split; [exact Hx|].
      rewrite (generate_report_rows pd ticker label (r :: rows) news (Fin x)
                 ltac:(discriminate) Hco Hx) in Hrep.
      congruence.
    + destruct label as [t|]; [|discriminate Hco]. simpl in Hco.
      destruct (generate_report_refuses pd ticker t (r :: rows) news)
        as [msg E]; [discriminate | exact Hco|].
      simpl in Hrep. rewrite E in Hrep. discriminate Hrep.
Qed.

(** X10: the news list goes into the report as it came: a report that
    [generate_report] returns holds under ["news"] the very list it was
    given, in the same order, whatever the table. *)
Theorem generate_report_news_unchanged (pd : pandas) (ticker : string)
    (data : option DataFrame) (news : list string)
    (report : gmap string value) :
  generate_report pd ticker data news = Ok report →
  report !! "news" = Some (VNews news).
Proof.
  intros Hrep.
  destruct (generate_report_cases pd ticker data news report Hrep)
    as [[_ ->]|(label & rows & x & _ & _ & _ & _ & ->)];
    by simplify_map_eq.
Qed.

Lemma generate_report_news_unchanged_witness :
  ∃ report,
    generate_report pandas_2 "AAPL" (Some provider_frame)
      ["T1 (S1)"; "T2 (S2)"]
    = Ok report
    ∧ report !! "news" = Some (VNews ["T1 (S1)"; "T2 (S2)"]).
Proof.
  eexists. split; [reflexivity|].
  apply (generate_report_news_unchanged pandas_2 "AAPL" (Some provider_frame)).
  reflexivity.
Defined.

(** X11: a report has the key ["news"] alone, or the four keys ["news"],
    ["last_close"], ["highest"] and ["lowest"]: no other key is ever
    set, and the ticker is not recorded. *)
Theorem generate_report_keys (pd : pandas) (ticker : string)
    (data : option DataFrame) (news : list string)
    (report : gmap string value) :
  generate_report pd ticker data news = Ok report →
  dom report = ({["news"]} : gset string)
  ∨ dom report = ({["news"; "last_close"; "highest"; "lowest"]} : gset string).
Proof.
  intros Hrep.
  destruct (generate_report_cases pd ticker data news report Hrep)
    as [[_ ->]|(label & rows & x & _ & _ & _ & _ & ->)].
  - left. rewrite dom_insert_L, dom_empty_L. set_solver.
  - right. rewrite !dom_insert_L, dom_empty_L. set_solver.
Qed.

Lemma generate_report_keys_witness :
  ∃ report,
    generate_report pandas_3 "AAPL" (Some sample_rows) [] = Ok report
    ∧ (dom report = ({["news"]} : gset string)
       ∨ dom report
         = ({["news"; "last_close"; "highest"; "lowest"]} : gset string)).
Proof.
  eexists. split; [reflexivity|].
  apply (generate_report_keys pandas_3 "AAPL" (Some sample_rows) []).
  reflexivity.
Defined.

(** X12: the report depends on the table through its [Close] selection
    only: two tables with the same closes give the same result, whatever
    their dates and volumes, and whatever the two tickers. *)
Theorem generate_report_close_column_only (pd : pandas)
    (ticker ticker' : string) (data data' : DataFrame) (news : list string) :
  getitem_Close data = getitem_Close data' →
  generate_report pd ticker (Some data) news
  = generate_report pd ticker' (Some data') news.
Proof.
  intros Hcol. unfold generate_report.
  rewrite (empty_getitem_Close data), (empty_getitem_Close data'), Hcol.
  reflexivity.
Qed.

Lemma generate_report_close_column_only_witness :
  generate_report pandas_3 "AAPL" (Some sample_rows) ["T1 (S1)"]
  = generate_report pandas_3 "MSFT"
      (Some (Flat [ {| Date := 1; Close := 150; Volume := 0 |};
                    {| Date := 0; Close := 200; Volume := 7 |};
                    {| Date := 5; Close := 180; Volume := 2 |} ]))
      ["T1 (S1)"].
Proof.
  apply (generate_report_close_column_only pandas_3 "AAPL" "MSFT" sample_rows).
  reflexivity.
Defined.

Lemma series_max_snoc (s : list Q) (hi x : Q) :
  series_max s = Fin hi → series_max (s ++ [x]) = Fin (Qmax hi x).
Proof.
  destruct s as [|a s]; [discriminate|]. simpl.
  intros H. injection H as <-. rewrite fold_left_app. reflexivity.
Qed.

Lemma series_min_snoc (s : list Q) (lo x : Q) :
  series_min s = Fin lo → series_min (s ++ [x]) = Fin (Qmin lo x).
Proof.
  destruct s as [|a s]; [discriminate|]. simpl.
  intros H. injection H as <-. rewrite fold_left_app. reflexivity.
Qed.

(** X13: one more trading day: when the report of the table of one ticker
    shows the high [hi] and the low [lo], the report of the table with a
    row [r] added at the end shows the close of [r] as last close, the
    larger of [hi] and that close as high, and the smaller of [lo] and
    that close as low. *)
Theorem generate_report_append_row (pd : pandas) (ticker : string)
    (label : option string) (rows : list row) (r : row)
    (news news' : list string) (old : gmap string value) (hi lo : Q) :
  generate_report pd ticker (Some (one_ticker label rows)) news = Ok old →
  old !! "highest" = Some (VFloat (Fin hi)) →
  old !! "lowest" = Some (VFloat (Fin lo)) →
  ∃ report,
    generate_report pd ticker (Some (one_ticker label (rows ++ [r]))) news'
    = Ok report
    ∧ price_fields report
      = (Some (VFloat (Fin (Close r))),
         Some (VFloat (Fin (Qmax hi (Close r)))),
         Some (VFloat (Fin (Qmin lo (Close r))))).
Proof.
  intros Hold Hhi Hlo.
  destruct (generate_report_one_ticker pd ticker label rows news old Hold)
    as [[_ ->]|(Hne & Hco & x & Hx & ->)]; [simplify_map_eq|].
  assert (Emax : series_max (col_Close rows) = Fin hi)
    by (simplify_map_eq; congruence).
  assert (Emin : series_min (col_Close rows) = Fin lo)
    by (simplify_map_eq; congruence).
  assert (Hne' : rows ++ [r] ≠ []) by (destruct rows; discriminate).
  eexists. split.
  - apply (generate_report_rows pd ticker label (rows ++ [r]) news' _ Hne' Hco
             (iloc_last_snoc rows r)).
  - unfold col_Close. rewrite map_app. simpl.
    fold (col_Close rows).
    rewrite (series_max_snoc _ hi _ Emax), (series_min_snoc _ lo _ Emin).
    apply price_fields_rows.
Qed.

Lemma generate_report_append_row_witness :
  ∃ report,
    generate_report pandas_2 "AAPL"
      (Some (one_ticker (Some "AAPL")
               (sample_days
                ++ [ {| Date := 20240105; Close := 210; Volume := 5 |} ])))
      ["T1 (S1)"]
    = Ok report
    ∧ price_fields report
      = (Some (VFloat (Fin 210)),
         Some (VFloat (Fin (Qmax 200 210))),
         Some (VFloat (Fin (Qmin 150 210)))).
Proof.
  eapply (generate_report_append_row pandas_2 "AAPL" (Some "AAPL") sample_days
            {| Date := 20240105; Close := 210; Volume := 5 |} [] ["T1 (S1)"]).
  - reflexivity.
  - by vm_compute.
  - by vm_compute.
Defined.

(** * The page and the whole script *)

(** Lists of calls, with every append pushed to the right. *)
Ltac right_nested :=
  repeat (rewrite <- app_assoc || rewrite <- app_comm_cons || rewrite app_nil_r
          || rewrite app_nil_l).

Section MainRun.

Variables (w : world) (pd : pandas) (py : python) (b : browser)
          (NEWS_API_KEY : credential).

Lemma for_each_numbered (l : list (Z * string)) :
  for_each l (λ '(i, item), perform (StWrite (pretty i +:+ ". " +:+ item)))
  = (map StWrite (map (λ '(i, item), pretty i +:+ ". " +:+ item) l), Ok tt).
Proof.
  induction l as [|[i item] l IH]; [reflexivity|].
  cbn [for_each map]. rewrite IH. reflexivity.
Qed.

Lemma show_news (news_list : list string) :
  match news_list with
  | _ :: _ =>
      for_each (enumerate news_list 1)
        (λ '(i, item), perform (StWrite (pretty i +:+ ". " +:+ item)))
  | [] => perform (StWrite "No news found or API key missing.")
  end
  = (map StWrite (news_lines news_list), Ok tt).
Proof.
  destruct news_list as [|item news_list]; [reflexivity|].
  rewrite for_each_numbered. reflexivity.
Qed.

Lemma fetch_stock_data_outcome (ticker : string) :
  ∃ t stock_data,
    fetch_stock_data w ticker = (t, Ok stock_data)
    ∧ (stock_data = None
       ∨ ∃ data, stock_data = Some data ∧ empty data = false
                 ∧ yf_download w ticker "6mo" true = Ok data).
Proof.
  rewrite fetch_stock_data_cases.
  destruct (yf_download w ticker "6mo" true) as [table|e]; [|eauto].
  destruct (empty table) eqn:He; [eauto|].
  do 2 eexists. split; [reflexivity|]. right.
  eexists. split; [reflexivity|]. split; [exact He | reflexivity].
Qed.

Lemma fetch_news_outcome (ticker : string) (limit : Z) :
  ∃ t news_list, fetch_news w ticker NEWS_API_KEY limit = (t, Ok news_list).
Proof.
  destruct (fetch_news_returns w ticker NEWS_API_KEY limit) as [news_list H].
  destruct (fetch_news w ticker NEWS_API_KEY limit) as [t r].
  simpl in H. subst r. eauto.
Qed.

Lemma main_idle :
  triggered py b = false → main w pd py b NEWS_API_KEY = (page_head, Ok tt).
Proof.
  unfold triggered, main. intros H. cbn [sbind perform app].
  rewrite H. reflexivity.
Qed.

(** The report of a table that has rows holds the three price fields. *)
Lemma report_of_rows ticker (data : DataFrame) news report :
  empty data = false →
  generate_report pd ticker (Some data) news = Ok report →
  ∃ last high low,
    price_fields report
    = (Some (VFloat last), Some (VFloat high), Some (VFloat low)).
Proof.
  intros He Hrep.
  destruct (generate_report_cases pd ticker (Some data) news report Hrep)
    as [[[Hd|(table & Hd & Ht)] _]|(label & rows & x & _ & _ & _ & _ & ->)].
  - discriminate Hd.
  - injection Hd as <-. congruence.
  - do 3 eexists. apply price_fields_rows.
Qed.

(** A run that was triggered, call by call: it stops after the figure
    when [generate_report] raises, and goes on to the report and the news
    when it returns. *)
Lemma main_run t1 stock_data t2 news_list :
  triggered py b = true →
  fetch_stock_data w (upper py (typed b)) = (t1, Ok stock_data) →
  fetch_news w (upper py (typed b)) NEWS_API_KEY 5 = (t2, Ok news_list) →
  main w pd py b NEWS_API_KEY
  = match generate_report pd (upper py (typed b)) stock_data news_list with
    | Raise e => (run_prefix py b t1 t2 stock_data, Raise e)
    | Ok report =>
        (run_prefix py b t1 t2 stock_data
         ++ [report_header]
         ++ map StWrite (price_lines py stock_data report)
         ++ [news_header]
         ++ map StWrite (news_lines news_list),
         Ok tt)
    end.
Proof.
  intros Htrig Hstock Hnews.
  assert (Hrows : stock_data = None
                  ∨ ∃ data, stock_data = Some data ∧ empty data = false).
  { destruct (fetch_stock_data_outcome (upper py (typed b)))
      as (t & sd & E & [->|(data & -> & Hne & _)]);
      rewrite E in Hstock; injection Hstock as <- <-; eauto. }
  unfold triggered in Htrig. unfold main, run_prefix.
  cbn [sbind perform app]. rewrite Htrig.
  unfold run. rewrite Hstock, Hnews. cbn [trace outcome fst snd sbind perform].
  destruct Hrows as [->|(data & -> & Hne)].
  - rewrite generate_report_no_rows by auto.
    cbn [sret evaluate sbind perform plot_calls price_lines map app].
    rewrite show_news. unfold page_head. right_nested. reflexivity.
  - assert (Hplot : ∃ tp, plot_stock_data data (upper py (typed b)) = (tp, Ok tt))
      by (eexists; reflexivity).
    destruct Hplot as [tp Hplot].
    unfold plot_calls. rewrite Hplot. unfold evaluate. cbn [sbind perform fst].
    destruct (generate_report pd (upper py (typed b)) (Some data) news_list)
      as [report|e] eqn:Hrep.
    + destruct (report_of_rows _ data news_list report Hne Hrep)
        as (last & high & low & Hfields).
      unfold price_lines. rewrite Hfields.
      unfold price_fields in Hfields.
      injection Hfields as Hlast Hhigh Hlow.
      unfold format_field. rewrite Hlast, Hhigh, Hlow.
      cbn [sbind perform]. rewrite show_news.
      unfold page_head. cbn [map]. right_nested. reflexivity.
    + unfold page_head. right_nested. reflexivity.
Qed.

End MainRun.

Section Projections.

Lemma pipeline_events_app (t t' : list call) :
  pipeline_events (t ++ t') = pipeline_events t ++ pipeline_events t'.
Proof.
  induction t as [|c t IH]; [reflexivity|].
  destruct c; simpl; rewrite IH; reflexivity.
Qed.

Lemma pipeline_events_pipeline (t : list event) :
  pipeline_events (map Pipeline t) = t.
Proof. induction t as [|ev t IH]; simpl; [|rewrite IH]; reflexivity. Qed.

Lemma pipeline_events_writes (l : list string) :
  pipeline_events (map StWrite l) = [].
Proof. induction l as [|x l IH]; simpl; [reflexivity | exact IH]. Qed.

Lemma pipeline_events_plot (stock_data : option DataFrame) (ticker : string) :
  pipeline_events (plot_calls stock_data ticker) = [].
Proof. destruct stock_data; reflexivity. Qed.

Lemma pipeline_events_prefix py b t1 t2 stock_data :
  pipeline_events (run_prefix py b t1 t2 stock_data) = t1 ++ t2.
Proof.
  unfold run_prefix.
  rewrite !pipeline_events_app, !pipeline_events_pipeline,
    pipeline_events_plot.
  simpl. rewrite app_nil_r. reflexivity.
Qed.

Lemma written_app (t t' : list call) :
  written (t ++ t') = written t ++ written t'.
Proof.
  induction t as [|c t IH]; [reflexivity|].
  destruct c; simpl; rewrite IH; reflexivity.
Qed.

Lemma written_pipeline (t : list event) : written (map Pipeline t) = [].
Proof. induction t as [|ev t IH]; simpl; [reflexivity | exact IH]. Qed.

Lemma written_writes (l : list string) : written (map StWrite l) = l.
Proof. induction l as [|x l IH]; simpl; [|rewrite IH]; reflexivity. Qed.

Lemma written_plot (stock_data : option DataFrame) (ticker : string) :
  written (plot_calls stock_data ticker) = [].
Proof. destruct stock_data; reflexivity. Qed.

Lemma written_prefix py b t1 t2 stock_data :
  written (run_prefix py b t1 t2 stock_data)
  = ["Powered by Agentic AI concepts (multi-agent inspired)"].
Proof.
  unfold run_prefix.
  rewrite !written_app, !written_pipeline, written_plot. reflexivity.
Qed.

Lemma enumerate_lookup {A} (l : list A) : ∀ (start : Z) (k : nat),
  enumerate l start !! k = (λ x, ((start + Z.of_nat k)%Z, x)) <$> l !! k.
Proof.
  induction l as [|x l IH]; intros start k; [reflexivity|].
  destruct k as [|k]; simpl.
  - rewrite Z.add_0_r. reflexivity.
  - rewrite IH. destruct (l !! k); simpl; [|reflexivity].
    do 2 f_equal. lia.
Qed.

Lemma enumerate_length {A} (l : list A) : ∀ start,
  length (enumerate l start) = length l.
Proof.
  induction l as [|x l IH]; intros start; simpl; [|rewrite IH]; reflexivity.
Qed.

End Projections.

(** X14: nothing happens until the button is pressed on a ticker that is
    not empty: the run shows the title, the tag line and the two
    widgets, and makes no download, no request and no plot. *)
Theorem main_idle_makes_no_call (w : world) (pd : pandas) (py : python)
    (b : browser) (NEWS_API_KEY : credential) :
  pressed b = false ∨ upper py (typed b) = "" →
  main w pd py b NEWS_API_KEY = (page_head, Ok tt).
Proof.
  intros H. apply main_idle. unfold triggered, truthy_str.
  destruct H as [-> | ->]; [reflexivity|].
  apply andb_false_r.
Qed.

Lemma main_idle_makes_no_call_witness :
  main (sample_world (Ok sample_rows) (Raise connection_error)) pandas_3
       sample_python {| typed := "aapl"; pressed := false |} (Some "demo-key")
  = (page_head, Ok tt).
Proof.
  apply (main_idle_makes_no_call
           (sample_world (Ok sample_rows) (Raise connection_error))
           pandas_3 sample_python {| typed := "aapl"; pressed := false |}
           (Some "demo-key")).
  left. reflexivity.
Defined.

(** The events of the pipeline in a triggered run whose two fetches left
    the traces [t1] and [t2]. *)
Lemma main_run_events (w : world) (pd : pandas) (py : python) (b : browser)
    (NEWS_API_KEY : credential) t1 stock_data t2 news_list :
  triggered py b = true →
  fetch_stock_data w (upper py (typed b)) = (t1, Ok stock_data) →
  fetch_news w (upper py (typed b)) NEWS_API_KEY 5 = (t2, Ok news_list) →
  pipeline_events (fst (main w pd py b NEWS_API_KEY)) = t1 ++ t2.
Proof.
  intros Htrig Hstock Hnews.
  rewrite (main_run w pd py b NEWS_API_KEY t1 stock_data t2 news_list
             Htrig Hstock Hnews).
  destruct (generate_report pd (upper py (typed b)) stock_data news_list);
    cbn [fst].
  - rewrite !pipeline_events_app, pipeline_events_prefix,
      !pipeline_events_writes.
    simpl. rewrite app_nil_r. reflexivity.
  - apply pipeline_events_prefix.
Qed.

(** X15: a triggered run calls each fetcher once, the price fetcher
    first, both with the upper-cased ticker, the news fetcher with the
    limit 5 and the key of the module; the events of the pipeline are
    those of the two fetchers and no other, so the news is fetched also
    when the price fetch failed. *)
Theorem main_runs_both_fetchers (w : world) (pd : pandas) (py : python)
    (b : browser) (NEWS_API_KEY : credential) :
  triggered py b = true →
  pipeline_events (fst (main w pd py b NEWS_API_KEY))
  = trace (fetch_stock_data w (upper py (typed b)))
    ++ trace (fetch_news w (upper py (typed b)) NEWS_API_KEY 5).
Proof.
  intros Htrig.
  destruct (fetch_stock_data_outcome w (upper py (typed b)))
    as (t1 & stock_data & Hstock & _).
  destruct (fetch_news_outcome w NEWS_API_KEY (upper py (typed b)) 5)
    as (t2 & news_list & Hnews).
  rewrite (main_run_events w pd py b NEWS_API_KEY t1 stock_data t2 news_list
             Htrig Hstock Hnews), Hstock, Hnews.
  reflexivity.
Qed.

Lemma main_runs_both_fetchers_witness :
  pipeline_events
    (fst (main (sample_world (Raise connection_error)
                  (answer 200 (sample_body three_articles)))
               pandas_3 sample_python {| typed := "aapl"; pressed := true |}
               (Some "demo-key")))
  = trace (fetch_stock_data
             (sample_world (Raise connection_error)
                (answer 200 (sample_body three_articles))) "AAPL")
    ++ trace (fetch_news
                (sample_world (Raise connection_error)
                   (answer 200 (sample_body three_articles)))
                "AAPL" (Some "demo-key") 5).
Proof.
  apply (main_runs_both_fetchers
           (sample_world (Raise connection_error)
              (answer 200 (sample_body three_articles)))
           pandas_3 sample_python {| typed := "aapl"; pressed := true |}
           (Some "demo-key")).
  reflexivity.
Defined.



(** X17: end to end, with rows: when the provider answers a triggered
    run with the table of one ticker whose last row is [r], and [float]
    accepts what its reductions hand back (flat labels, or pandas up to
    2), the page draws the figure and writes, after the tag line, the
    close of [r], the largest close and the smallest close of the table,
    each with two decimals, and then the lines of the news. *)
Theorem main_shows_prices (w : world) (pd : pandas) (py : python)
    (b : browser) (NEWS_API_KEY : credential) (label : option string)
    (rows : list row) (r : row) (news_list : list string) :
  triggered py b = true →
  yf_download w (upper py (typed b)) "6mo" true
  = Ok (one_ticker label (rows ++ [r])) →
  coercible pd label = true →
  outcome (fetch_news w (upper py (typed b)) NEWS_API_KEY 5) = Ok news_list →
  written (fst (main w pd py b NEWS_API_KEY))
  = ["Powered by Agentic AI concepts (multi-agent inspired)";
     "Last Closing Price: $" +:+ format_2f py (Fin (Close r));
     "Highest Price (6mo): $"
       +:+ format_2f py (series_max (col_Close (rows ++ [r])));
     "Lowest Price (6mo): $"
       +:+ format_2f py (series_min (col_Close (rows ++ [r])))]
    ++ news_lines news_list
  ∧ In StPyplot (fst (main w pd py b NEWS_API_KEY)).
Proof.
  intros Htrig Hdl Hco Hout.
  assert (Hne : rows ++ [r] ≠ []) by (destruct rows; discriminate).
  assert (Hstock : fetch_stock_data w (upper py (typed b))
                   = ([YfDownload (upper py (typed b)) "6mo" true],
                      Ok (Some (one_ticker label (rows ++ [r]))))).
  { rewrite fetch_stock_data_cases, Hdl, (empty_one_ticker label _ Hne).
    reflexivity. }
  destruct (fetch_news w (upper py (typed b)) NEWS_API_KEY 5)
    as [t2 r2] eqn:Hnews.
  simpl in Hout. subst r2.
  rewrite (main_run w pd py b NEWS_API_KEY _ _ t2 news_list Htrig Hstock Hnews).
  rewrite (generate_report_rows pd _ label (rows ++ [r]) news_list _ Hne Hco
             (iloc_last_snoc rows r)).
  cbn [fst]. split.
  - rewrite !written_app, written_prefix, !written_writes.
    unfold price_lines. rewrite price_fields_rows. reflexivity.
  - rewrite in_app_iff. left. unfold run_prefix.
    rewrite !in_app_iff. do 5 right.
    destruct label; simpl; do 10 right; left; reflexivity.
Qed.

Lemma main_shows_prices_witness :
  written
    (fst (main (sample_world (Ok provider_frame)
                  (answer 200 (sample_body three_articles)))
               pandas_2 sample_python {| typed := "aapl"; pressed := true |}
               (Some "demo-key")))
  = ["Powered by Agentic AI concepts (multi-agent inspired)";
     "Last Closing Price: $180.00";
     "Highest Price (6mo): $200.00";
     "Lowest Price (6mo): $150.00";
     "1. T1 (S1)"; "2. T2 (S2)"; "3. T3 (S3)"]
  ∧ In StPyplot
      (fst (main (sample_world (Ok provider_frame)
                    (answer 200 (sample_body three_articles)))
                 pandas_2 sample_python {| typed := "aapl"; pressed := true |}
                 (Some "demo-key"))).
Proof.
  apply (main_shows_prices
           (sample_world (Ok provider_frame)
              (answer 200 (sample_body three_articles)))
           pandas_2 sample_python {| typed := "aapl"; pressed := true |}
           (Some "demo-key") (Some "AAPL")
           [ {| Date := 20240102; Close := 150; Volume := 1200 |};
             {| Date := 20240103; Close := 200; Volume := 900 |} ]
           {| Date := 20240104; Close := 180; Volume := 1500 |}
           ["T1 (S1)"; "T2 (S2)"; "T3 (S3)"]);
    reflexivity.
Defined.

(** X18: end to end, without rows: when the provider of a triggered run
    raises, or answers with a table without rows, the page writes no
    price line and draws nothing, and still writes the lines of the
    news after the tag line. *)
Theorem main_without_prices (w : world) (pd : pandas) (py : python)
    (b : browser) (NEWS_API_KEY : credential) (news_list : list string) :
  triggered py b = true →
  ((∃ table, yf_download w (upper py (typed b)) "6mo" true = Ok table
             ∧ empty table = true)
   ∨ ∃ e, yf_download w (upper py (typed b)) "6mo" true = Raise e) →
  outcome (fetch_news w (upper py (typed b)) NEWS_API_KEY 5) = Ok news_list →
  written (fst (main w pd py b NEWS_API_KEY))
  = "Powered by Agentic AI concepts (multi-agent inspired)"
    :: news_lines news_list
  ∧ Forall (λ c, is_plot_call c = false) (fst (main w pd py b NEWS_API_KEY)).
Proof.
  intros Htrig Hdl Hout.
  assert (Hstock : ∃ t1, fetch_stock_data w (upper py (typed b)) = (t1, Ok None)).
  { rewrite fetch_stock_data_cases.
    destruct Hdl as [(table & -> & ->) | [e ->]]; simpl; eauto. }
  destruct Hstock as [t1 Hstock].
  destruct (fetch_news w (upper py (typed b)) NEWS_API_KEY 5)
    as [t2 r2] eqn:Hnews.
  simpl in Hout. subst r2.
  rewrite (main_run w pd py b NEWS_API_KEY t1 None t2 news_list Htrig Hstock Hnews).
  rewrite (generate_report_no_rows pd _ None news_list) by auto.
  cbn [fst]. split.
  - rewrite !written_app, written_prefix, !written_writes. reflexivity.
  - unfold run_prefix.
    repeat (apply Forall_app; split); repeat constructor.
    all: apply Forall_forall; intros c Hc; apply list_elem_of_fmap in Hc;
      destruct Hc as (ev & -> & _); reflexivity.
Qed.

Lemma main_without_prices_witness :
  written
    (fst (main (sample_world (Raise connection_error)
                  (answer 200 (sample_body three_articles)))
               pandas_3 sample_python {| typed := "zzzz"; pressed := true |}
               (Some "demo-key")))
  = ["Powered by Agentic AI concepts (multi-agent inspired)";
     "1. T1 (S1)"; "2. T2 (S2)"; "3. T3 (S3)"]
  ∧ Forall (λ c, is_plot_call c = false)
      (fst (main (sample_world (Raise connection_error)
                    (answer 200 (sample_body three_articles)))
                 pandas_3 sample_python {| typed := "zzzz"; pressed := true |}
                 (Some "demo-key"))).
Proof.
  apply (main_without_prices
           (sample_world (Raise connection_error)
              (answer 200 (sample_body three_articles)))
           pandas_3 sample_python {| typed := "zzzz"; pressed := true |}
           (Some "demo-key") ["T1 (S1)"; "T2 (S2)"; "T3 (S3)"]).
  - reflexivity.
  - right. exists connection_error. reflexivity.
  - reflexivity.
Defined.

Lemma news_lines_numbered (news_list : list string) :
  news_list ≠ [] →
  length (news_lines news_list) = length news_list
  ∧ ∀ (k : nat) item,
      news_list !! k = Some item →
      news_lines news_list !! k
      = Some (pretty (Z.of_nat k + 1)%Z +:+ ". " +:+ item).
Proof.
  destruct news_list as [|x l]; [congruence|]. intros _.
  unfold news_lines. split.
  - rewrite length_map. apply enumerate_length.
  - intros k item Hk. rewrite list_lookup_fmap, enumerate_lookup, Hk.
    simpl. rewrite Z.add_comm. reflexivity.
Qed.

(** X19: in a triggered run that ends normally, the headlines are
    written last, one line each, in the order [fetch_news] returned them
    and numbered from 1: the headline in position [k] (from 0) is on the
    line ["<k+1>. <headline>"]. *)
Theorem main_numbers_headlines (w : world) (pd : pandas) (py : python)
    (b : browser) (NEWS_API_KEY : credential) (news_list : list string) :
  triggered py b = true →
  snd (main w pd py b NEWS_API_KEY) = Ok tt →
  outcome (fetch_news w (upper py (typed b)) NEWS_API_KEY 5) = Ok news_list →
  news_list ≠ [] →
  ∃ before lines,
    written (fst (main w pd py b NEWS_API_KEY)) = before ++ lines
    ∧ length lines = length news_list
    ∧ ∀ (k : nat) item,
        news_list !! k = Some item →
        lines !! k = Some (pretty (Z.of_nat k + 1)%Z +:+ ". " +:+ item).
Proof.
  intros Htrig Hend Hout Hne.
  destruct (fetch_stock_data_outcome w (upper py (typed b)))
    as (t1 & stock_data & Hstock & _).
  destruct (fetch_news w (upper py (typed b)) NEWS_API_KEY 5)
    as [t2 r2] eqn:Hnews.
  simpl in Hout. subst r2.
  rewrite (main_run w pd py b NEWS_API_KEY t1 stock_data t2 news_list
             Htrig Hstock Hnews) in Hend |- *.
  destruct (generate_report pd (upper py (typed b)) stock_data news_list)
    as [report|e]; [|discriminate Hend].
  cbn [fst].
  rewrite !written_app, written_prefix, !written_writes.
  rewrite !app_assoc.
  eexists _, (news_lines news_list). split; [reflexivity|].
  apply news_lines_numbered, Hne.
Qed.

Lemma main_numbers_headlines_witness :
  ∃ before lines,
    written
      (fst (main (sample_world (Ok sample_rows)
                    (answer 200 (sample_body three_articles)))
                 pandas_3 sample_python {| typed := "aapl"; pressed := true |}
                 (Some "demo-key")))
    = before ++ lines
    ∧ length lines = 3
    ∧ ∀ (k : nat) item,
        ["T1 (S1)"; "T2 (S2)"; "T3 (S3)"] !! k = Some item →
        lines !! k = Some (pretty (Z.of_nat k + 1)%Z +:+ ". " +:+ item).
Proof.
  apply (main_numbers_headlines
           (sample_world (Ok sample_rows)
              (answer 200 (sample_body three_articles)))
           pandas_3 sample_python {| typed := "aapl"; pressed := true |}
           (Some "demo-key") ["T1 (S1)"; "T2 (S2)"; "T3 (S3)"]).
  - reflexivity.
  - reflexivity.
  - reflexivity.
  - discriminate.
Defined.

(** The traces [fetch_news] can leave once the request went out. *)
Lemma fetch_news_trace_forms (w : world) (ticker : string)
    (api_key : credential) (limit : Z) :
  falsy api_key = false →
  ∃ rest,
    trace (fetch_news w ticker api_key limit)
    = HttpGet (news_url ticker api_key limit) :: rest
    ∧ (rest = []
       ∨ (∃ code, rest = [StWarning ("NewsAPI returned status " +:+ code)])
       ∨ (∃ cause, rest = [StWarning ("Failed to fetch news: " +:+ cause)])).
Proof.
  intros Hkey. rewrite (fetch_news_unfold w ticker api_key limit Hkey).
  destruct (requests_get w _) as [resp|e]; [|simpl; eauto 6].
  destruct (status_code resp =? 200)%Z; [|simpl; eauto 6].
  unfold articles_extracted.
  destruct (parse_articles w resp); simpl; eauto 6.
Qed.

(** X20: in a triggered run of the script, the warning that the key was
    not loaded is shown exactly when no request is sent to the news
    provider. *)
Theorem script_key_warning_iff_no_request (w : world) (pd : pandas)
    (py : python) (b : browser) (NEWS_API_KEY : credential) :
  triggered py b = true →
  In key_warning (pipeline_events (fst (script w pd py b NEWS_API_KEY)))
  ↔ Forall (λ ev, is_http_get ev = false)
      (pipeline_events (fst (script w pd py b NEWS_API_KEY))).
Proof.
  intros Htrig.
  destruct (fetch_stock_data_outcome w (upper py (typed b)))
    as (t1 & stock_data & Hstock & _).
  destruct (fetch_news_outcome w NEWS_API_KEY (upper py (typed b)) 5)
    as (t2 & news_list & Hnews).
  assert (Hev : pipeline_events (fst (script w pd py b NEWS_API_KEY))
                = trace (startup NEWS_API_KEY) ++ t1 ++ t2).
  { rewrite <- (main_run_events w pd py b NEWS_API_KEY t1 stock_data t2
                  news_list Htrig Hstock Hnews).
    unfold script, run, sbind, startup.
    destruct (falsy NEWS_API_KEY); simpl;
      destruct (main w pd py b NEWS_API_KEY) as [tm [[]|e]]; reflexivity. }
  rewrite Hev.
  pose proof (fetch_stock_data_quiet w (upper py (typed b))) as Hquiet.
  rewrite Hstock in Hquiet. simpl in Hquiet.
  unfold startup. destruct (falsy NEWS_API_KEY) eqn:Hkey.
  - rewrite (fetch_news_falsy w _ NEWS_API_KEY 5 Hkey) in Hnews.
    injection Hnews as <- _.
    split; [|intros _; left; reflexivity].
    intros _. simpl. constructor; [reflexivity|]. rewrite app_nil_r.
    eapply Forall_impl; [exact Hquiet|]. intros ev [H _]. exact H.
  - destruct (fetch_news_trace_forms w (upper py (typed b)) NEWS_API_KEY 5 Hkey)
      as (rest2 & Htr & Hrest2).
    rewrite Hnews in Htr. simpl in Htr. subst t2.
    split.
    + intros Hin. exfalso. simpl in Hin.
      apply in_app_or in Hin as [Hin|Hin].
      * rewrite List.Forall_forall in Hquiet.
        destruct (Hquiet _ Hin) as [_ Hw]. discriminate Hw.
      * destruct Hin as [Hin|Hin]; [discriminate Hin|].
        destruct Hrest2 as [-> | [[code ->] | [cause ->]]]; simpl in Hin.
        -- destruct Hin.
        -- destruct Hin as [Hin|[]]. unfold key_warning in Hin.
           injection Hin as Hin. discriminate Hin.
        -- destruct Hin as [Hin|[]]. unfold key_warning in Hin.
           injection Hin as Hin. discriminate Hin.
    + intros Hall. exfalso. simpl in Hall.
      apply Forall_app in Hall as [_ Hall].
      apply Forall_cons in Hall as [Hget _]. discriminate Hget.
Qed.

Lemma script_key_warning_iff_no_request_witness :
  In key_warning
     (pipeline_events
        (fst (script (sample_world (Ok sample_rows)
                        (answer 200 (sample_body three_articles)))
                     pandas_3 sample_python
                     {| typed := "aapl"; pressed := true |} None)))
  ↔ Forall (λ ev, is_http_get ev = false)
      (pipeline_events
         (fst (script (sample_world (Ok sample_rows)
                         (answer 200 (sample_body three_articles)))
                      pandas_3 sample_python
                      {| typed := "aapl"; pressed := true |} None))).
Proof.
  apply (script_key_warning_iff_no_request
           (sample_world (Ok sample_rows)
              (answer 200 (sample_body three_articles)))
           pandas_3 sample_python {| typed := "aapl"; pressed := true |} None).
  reflexivity.
Defined.

(** ** The extremes and the order of the rows *)

Lemma report_extremes (pd : pandas) (ticker : string) (label : option string)
    (rows : list row) (news : list string) (report : gmap string value)
    (hi lo : Q) :
  generate_report pd ticker (Some (one_ticker label rows)) news = Ok report →
  report !! "highest" = Some (VFloat (Fin hi)) →
  report !! "lowest" = Some (VFloat (Fin lo)) →
  is_max_of hi (col_Close rows) ∧ is_min_of lo (col_Close rows).
Proof.
  intros Hrep Hhi Hlo.
  destruct (generate_report_one_ticker pd ticker label rows news report Hrep)
    as [[_ ->]|(Hne & _ & x & _ & ->)]; [simplify_map_eq|].
  assert (Hcol : col_Close rows ≠ [])
    by (destruct rows; [congruence | discriminate]).
  destruct (series_max_spec _ Hcol) as (hi0 & Ehi & Hmax).
  destruct (series_min_spec _ Hcol) as (lo0 & Elo & Hmin).
  rewrite Ehi, Elo in Hhi, Hlo. simplify_map_eq.
  split; assumption.
Qed.

(** X21: the high and the low do not depend on the order of the rows:
    two tables of one ticker with the same rows in different orders give
    reports with equal highs and equal lows (the last close is the one
    field that follows the order). *)
Theorem generate_report_extremes_any_order (pd : pandas) (ticker : string)
    (label : option string) (rows rows' : list row) (news : list string)
    (report report' : gmap string value) (hi lo hi' lo' : Q) :
  Permutation rows rows' →
  generate_report pd ticker (Some (one_ticker label rows)) news = Ok report →
  generate_report pd ticker (Some (one_ticker label rows')) news = Ok report' →
  report !! "highest" = Some (VFloat (Fin hi)) →
  report !! "lowest" = Some (VFloat (Fin lo)) →
  report' !! "highest" = Some (VFloat (Fin hi')) →
  report' !! "lowest" = Some (VFloat (Fin lo')) →
  (hi == hi')%Q ∧ (lo == lo')%Q.
Proof.
  intros Hperm Hrep Hrep' Hhi Hlo Hhi' Hlo'.
  destruct (report_extremes pd ticker label rows news report hi lo Hrep Hhi Hlo)
    as [[Hin_hi Hmax] [Hin_lo Hmin]].
  destruct (report_extremes pd ticker label rows' news report' hi' lo'
              Hrep' Hhi' Hlo')
    as [[Hin_hi' Hmax'] [Hin_lo' Hmin']].
  assert (Hcol : Permutation (col_Close rows) (col_Close rows'))
    by (apply Permutation_map, Hperm).
  split; apply Qle_antisym.
  - apply Hmax', (Permutation_in _ Hcol), Hin_hi.
  - apply Hmax, (Permutation_in _ (Permutation_sym Hcol)), Hin_hi'.
  - apply Hmin, (Permutation_in _ (Permutation_sym Hcol)), Hin_lo'.
  - apply Hmin', (Permutation_in _ Hcol), Hin_lo.
Qed.

Lemma generate_report_extremes_any_order_witness :
  (200 == 200)%Q ∧ (150 == 150)%Q.
Proof.
  eapply (generate_report_extremes_any_order pandas_3 "AAPL" None sample_days
            (rev sample_days) []).
  - apply Permutation_rev.
  - reflexivity.
  - reflexivity.
  - by vm_compute.
  - by vm_compute.
  - by vm_compute.
  - by vm_compute.
Defined.
